(** * Cart, checkout and recently-viewed logic of the furniture store frontend

    A shallow embedding of the client-side state handling in
    [frontend/src/static/js/main.js]: the global [cart] array and its mirror
    in [localStorage], the cart and checkout total computations, order
    placement, the delivery estimate, the recently-viewed list and the
    currency formatter.

    Conventions of the embedding.
    - JavaScript numbers that the code uses as quantities, prices, amounts,
      day counts and numeric ids are integers; they are modelled as [Z], no
      NaN.  The additions that [addToCart] and the badge of the cart make on
      quantities are those of the engine, on doubles ([Number_add]); prices,
      amounts and day counts are in the range in which double arithmetic is
      exact.
    - JavaScript arrays are lists; [find]/[findIndex] are stdpp's
      [list_find], an in-place update of an element is [alter], [splice(i,1)]
      is [delete], [slice(0,n)] is [take].
    - [localStorage] holds text.  A stored text is represented by what
      [JSON.parse] makes of it: [Json v] is the text [JSON.stringify v]
      (parsing it gives [v] back), [Malformed s] is a text [s] that
      [JSON.parse] rejects with a [SyntaxError].
    - Functions that touch the DOM record what they show in an effect log. *)

From Stdlib Require Import ZArith QArith_base Qround Lqa String Ascii Bool DecimalString
  DecimalN.
From stdpp Require Import base decidable option list numbers strings sorting.

Local Open Scope string_scope.
Local Open Scope list_scope.
Local Open Scope Z_scope.

(** ** JavaScript values used as product identifiers *)

Module Js.

(** A product id reaches the cart either as a number (catalog data) or as a
    string (the [id] URL parameter, a [data-id] attribute). *)
Inductive Id : Type :=
  | IdNum (n : Z)
  | IdStr (s : string).

#[export] Instance Id_eq_dec : EqDecision Id.
Proof. solve_decision. Defined.

(** [a === b] on identifiers: same type and same value. *)
Definition strict_eq (a b : Id) : bool := bool_decide (a = b).

(** [a == b]: like [===] on two values of one type; a number and a string
    are compared after converting the string to a number.  The engine's
    string-to-number conversion is a parameter, [None] standing for a result
    that is [NaN] (or not an integer of the model). *)
Definition loose_eq (StringToNumber : string -> option Z) (a b : Id) : bool :=
  match a, b with
  | IdNum x, IdNum y => bool_decide (x = y)
  | IdStr s, IdStr t => bool_decide (s = t)
  | IdNum x, IdStr t =>
      match StringToNumber t with Some y => bool_decide (x = y) | None => false end
  | IdStr s, IdNum y =>
      match StringToNumber s with Some x => bool_decide (x = y) | None => false end
  end.

(** Decimal text of a natural number and of an integer, as in a template
    literal or a string concatenation. *)
Definition decimal (n : N) : string := NilEmpty.string_of_uint (N.to_uint n).

Definition Number_toString (n : Z) : string :=
  if n <? 0 then "-" +:+ decimal (Z.to_N (- n)) else decimal (Z.to_N n).

Definition ToString (i : Id) : string :=
  match i with
  | IdNum n => Number_toString n
  | IdStr s => s
  end.

(** A number of the engine is a double: it holds every integer up to 2^53 in
    magnitude, and beyond that only the integers of 53 significant bits.
    [toDouble z] is the double an integer result [z] comes out as: the
    nearest one, and of two that are as near the one whose significand is
    even.  (A magnitude of 2^1024 and more, which the engine gives as
    [Infinity], is outside the model.) *)
Definition toDouble (z : Z) : Z :=
  if Z.abs z <=? 2 ^ 53 then z
  else
    let ulp := 2 ^ (Z.log2 (Z.abs z) - 52) in
    let below := Z.abs z / ulp in
    let rest := Z.abs z mod ulp in
    let significand :=
      if 2 * rest <? ulp then below
      else if ulp <? 2 * rest then below + 1
      else if Z.even below then below else below + 1 in
    Z.sgn z * (significand * ulp).

(** [a + b] on numbers. *)
Definition Number_add (a b : Z) : Z := toDouble (a + b).

(** Exceptions the modelled code can raise. *)
Inductive Error : Type := SyntaxError | TypeError.

(** How an evaluation ends: with a value, or by throwing. *)
Inductive Completion (A : Type) : Type :=
  | Normal (a : A)
  | Throw (e : Error).
Arguments Normal {A} a.
Arguments Throw {A} e.

End Js.

Export Js.

(** ** Data model *)

(** One entry of the [cart] array: [{ id, quantity }]. *)
Record CartLine : Type := mkLine { id : Id; quantity : Z }.

#[export] Instance CartLine_eq_dec : EqDecision CartLine.
Proof. solve_decision. Defined.

(** A catalog product, with the attributes this code reads.  Optional
    attributes may be missing from the static catalog. *)
Record Product : Type := mkProduct {
  p_id : Z;
  p_name : string;
  p_price : Z;
  p_original_price : option Z;
  p_image : string;
  p_category : string;
  p_discount_percentage : option Z;
  p_rating : option Q;
  p_review_count : option Z
}.

(** The trimmed copy of a product kept in the recently-viewed list. *)
Record ViewedProduct : Type := mkViewed {
  v_id : Z;
  v_name : string;
  v_price : Z;
  v_original_price : option Z;
  v_image : string;
  v_category : string;
  v_discount_percentage : option Z;
  v_rating : option Q
}.

(** A calendar day of the local time zone, counted from 1970-01-01. *)
Definition Date : Type := Z.

(** The object written by the checkout form. *)
Record Customer : Type := mkCustomer {
  fullname : option string; phone : option string; email : option string
}.

Record Shipping : Type := mkShipping {
  address : option string; province : option string; district : option string;
  ward : option string; note : option string
}.

Record Totals : Type := mkTotals {
  t_subtotal : string; t_discount : string; t_shipping : string; t_total : string
}.

Record Order : Type := mkOrder {
  o_id : string;
  order_date : Date;
  customer : Customer;
  shipping : Shipping;
  shipping_method : string;
  payment_method : string;
  items : list CartLine;
  totals : Totals;
  estimated_delivery : Date * Date
}.

(** ** The persisted store *)

(** A stored text, seen through [JSON.parse]. *)
Inductive Blob (A : Type) : Type :=
  | Json (v : A)
  | Malformed (text : string).
Arguments Json {A} v.
Arguments Malformed {A} text.

(** The keys of [localStorage] this code owns; [None] is an absent key. *)
Record LocalStorage : Type := mkStorage {
  ls_cart : option (Blob (list CartLine));
  ls_viewedProducts : option (Blob (list ViewedProduct));
  ls_lastOrder : option (Blob Order);
  ls_couponCode : option string
}.

Definition emptyStorage : LocalStorage :=
  {| ls_cart := None; ls_viewedProducts := None; ls_lastOrder := None;
     ls_couponCode := None |}.

Definition setItem_cart (c : list CartLine) (ls : LocalStorage) : LocalStorage :=
  {| ls_cart := Some (Json c); ls_viewedProducts := ls_viewedProducts ls;
     ls_lastOrder := ls_lastOrder ls; ls_couponCode := ls_couponCode ls |}.

Definition setItem_viewedProducts (l : list ViewedProduct) (ls : LocalStorage)
  : LocalStorage :=
  {| ls_cart := ls_cart ls; ls_viewedProducts := Some (Json l);
     ls_lastOrder := ls_lastOrder ls; ls_couponCode := ls_couponCode ls |}.

Definition setItem_lastOrder (o : Order) (ls : LocalStorage) : LocalStorage :=
  {| ls_cart := ls_cart ls; ls_viewedProducts := ls_viewedProducts ls;
     ls_lastOrder := Some (Json o); ls_couponCode := ls_couponCode ls |}.

(** [JSON.parse(text)]: a malformed text throws. *)
Definition JSON_parse {A : Type} (text : Blob A) : Completion A :=
  match text with
  | Json v => Normal v
  | Malformed _ => Throw SyntaxError
  end.

(** ** What the user sees *)

Inductive Kind : Type := success | error.

Inductive Effect : Type :=
  | Notification (message : string) (kind : Kind)
  | CartCount (n : Z)
  | RenderCart
  | Navigate (url : string)
  | ConsoleError (message : string)
  | OrderShown (o : Order).

(** The state of a page session: the global [cart] variable, the browser's
    [localStorage] and the log of visible effects, oldest first. *)
Record World : Type := mkWorld {
  cart : list CartLine;
  localStorage : LocalStorage;
  effects : list Effect
}.


(** ** Code that reads and writes the session and may throw *)

Definition Run (A : Type) : Type := World -> Completion A * World.

#[export] Instance Run_ret : MRet Run := fun A a w => (Normal a, w).

#[export] Instance Run_bind : MBind Run := fun A B f m w =>
  match m w with
  | (Normal a, w') => f a w'
  | (Throw e, w') => (Throw e, w')
  end.

Definition throw {A : Type} (e : Error) : Run A := fun w => (Throw e, w).

(** [try { body } catch (error) { handler }] *)
Definition try_catch {A : Type} (body : Run A) (handler : Error -> Run A) : Run A :=
  fun w =>
    match body w with
    | (Normal a, w') => (Normal a, w')
    | (Throw e, w') => handler e w'
    end.

Definition get : Run World := fun w => (Normal w, w).

Definition modify (f : World -> World) : Run unit := fun w => (Normal tt, f w).

Definition completed {A : Type} (r : Completion A) : Run A :=
  fun w => (r, w).

(** The session after a handler has run, whether it returned or threw. *)
Definition after {A : Type} (handler : Run A) (w : World) : World := snd (handler w).

Definition emit (e : Effect) (w : World) : World :=
  {| cart := cart w; localStorage := localStorage w; effects := effects w ++ [e] |}.

Definition setStorage (f : LocalStorage -> LocalStorage) (w : World) : World :=
  {| cart := cart w; localStorage := f (localStorage w); effects := effects w |}.

Definition setCart (c : list CartLine) (w : World) : World :=
  {| cart := c; localStorage := localStorage w; effects := effects w |}.

Definition showNotification (message : string) (kind : Kind) : World -> World :=
  emit (Notification message kind).

(** Script start: [let cart = JSON.parse(localStorage.getItem('cart')) || [];]
    An absent key reads as [null], which [JSON.parse] turns into [null], and
    [null || []] is the empty array; a parsed array is kept as it is.  The
    statement stands at the top level of the script, outside any [try]. *)
Definition loadCart (ls : LocalStorage) : Completion (list CartLine) :=
  match ls_cart ls with
  | None => Normal []
  | Some text => JSON_parse text
  end.

Definition startScript (ls : LocalStorage) : Completion World :=
  match loadCart ls with
  | Normal c => Normal {| cart := c; localStorage := ls; effects := [] |}
  | Throw e => Throw e
  end.

(** A session that starts on a browser profile with nothing stored. *)
Definition freshWorld : World :=
  {| cart := []; localStorage := emptyStorage; effects := [] |}.

(** ** Currency formatter *)

Module Currency.

Definition is_digit (c : ascii) : bool :=
  (Nat.leb 48 (nat_of_ascii c) && Nat.leb (nat_of_ascii c) 57)%bool.

(** Grouping of a digit sequence given least significant digit first: a
    separator after every three digits that are followed by more digits. *)
Fixpoint group_rev (l : list ascii) : list ascii :=
  match l with
  | a :: b :: c :: (_ :: _) as more => a :: b :: c :: "."%char :: group_rev more
  | _ => l
  end.

Definition group (digits : string) : string :=
  string_of_list_ascii (rev (group_rev (rev (list_ascii_of_string digits)))).

(** [amount.toLocaleString('vi-VN')] on an integer: the decimal digits in
    groups of three separated by a full stop, the Vietnamese convention;
    a minus sign in front of a negative amount. *)
Definition toLocaleString_viVN (amount : Z) : string :=
  if amount <? 0 then "-" +:+ group (decimal (Z.to_N (- amount)))
  else group (decimal (Z.to_N amount)).

(** [formatCurrency(amount)] *)
Definition formatCurrency (amount : Z) : string :=
  toLocaleString_viVN amount +:+ "₫".

(** [text.replace(/[^0-9]/g, '')] *)
Fixpoint strip_non_digits (text : string) : string :=
  match text with
  | EmptyString => EmptyString
  | String c rest =>
      if is_digit c then String c (strip_non_digits rest) else strip_non_digits rest
  end.

Fixpoint leading_digits (text : string) : string :=
  match text with
  | EmptyString => EmptyString
  | String c rest => if is_digit c then String c (leading_digits rest) else EmptyString
  end.

(** [parseFloat(text)] on the texts that reach it here, which hold nothing
    but the characters 0 to 9: the number written by the leading digits,
    [None] (for [NaN]) when there is none. *)
Definition parseFloat (text : string) : option Z :=
  match leading_digits text with
  | EmptyString => None
  | digits => (fun d => Z.of_N (N.of_uint d)) <$> NilEmpty.uint_of_string digits
  end.

End Currency.

Export Currency.

(** ** Cart store *)

Module Cart.

(** [cart.reduce((total, item) => total + item.quantity, 0)] *)
Definition cartCount (c : list CartLine) : Z :=
  fold_left (fun total item => Number_add total (quantity item)) c 0.

(** [updateCartCount()]: push the badge value to the page. *)
Definition updateCartCount (w : World) : World :=
  emit (CartCount (cartCount (cart w))) w.

(** [localStorage.setItem('cart', JSON.stringify(cart))] *)
Definition saveCart (w : World) : World :=
  setStorage (setItem_cart (cart w)) w.

(** The cart page redraws itself from the global variable. *)
Definition renderCart : World -> World := emit RenderCart.

(** [existingItem.quantity += quantity] *)
Definition increase (by_ : Z) (item : CartLine) : CartLine :=
  {| id := id item; quantity := Number_add (quantity item) by_ |}.

(** [cart[index].quantity = quantity] *)
Definition overwrite (q : Z) (item : CartLine) : CartLine :=
  {| id := id item; quantity := q |}.

(** The array part of [addToCart]: the product is looked up with [===];
    the line found (the first one) is increased, or a new line is pushed. *)
Definition add_line (productId : Id) (qty : Z) (c : list CartLine) : list CartLine :=
  match list_find (fun item => strict_eq (id item) productId = true) c with
  | Some (i, _) => alter (increase qty) i c
  | None => c ++ [{| id := productId; quantity := qty |}]
  end.

Definition addToCart (productId : Id) (qty : Z) (w : World) : World :=
  showNotification "Đã thêm sản phẩm vào giỏ hàng!" success
    (updateCartCount (saveCart (setCart (add_line productId qty (cart w)) w))).

Definition clearCart (w : World) : World :=
  showNotification "Giỏ hàng đã được xóa!" success
    (updateCartCount (renderCart (saveCart (setCart [] w)))).

(** The operations of the store, for sequences of them. *)
Inductive Op : Type :=
  | add (productId : Id) (qty : Z)
  | setQuantity (productId : Id) (qty : Z)
  | remove (productId : Id).

(** How a request to the product API ends: with the decoded body ([None]
    for a body that is not an object), or rejected. *)
Inductive Response : Type :=
  | Resolved (body : option Product)
  | Rejected.

Section Engine.

(** The engine's conversion of a string to a number, which [==] and [!=]
    apply when they compare a number with a string. *)
Variable StringToNumber : string -> option Z.

Local Notation "a == b" := (loose_eq StringToNumber a b) (at level 70, no associativity).

(** [cart.filter(item => item.id != productId)] *)
Definition remove_line (productId : Id) (c : list CartLine) : list CartLine :=
  filter (fun item => (id item == productId) = false) c.

Definition removeCartItem (productId : Id) (w : World) : World :=
  updateCartCount (renderCart (saveCart (setCart (remove_line productId (cart w)) w))).

(** [updateCartItem]: the line is searched with [==]; nothing at all happens
    when there is none. *)
Definition updateCartItem (productId : Id) (qty : Z) (w : World) : World :=
  match list_find (fun item => (id item == productId) = true) (cart w) with
  | Some (index, _) =>
      if qty <=? 0 then removeCartItem productId w
      else renderCart (saveCart (setCart (alter (overwrite qty) index (cart w)) w))
  | None => w
  end.

Definition perform (w : World) (op : Op) : World :=
  match op with
  | add p q => addToCart p q w
  | setQuantity p q => updateCartItem p q w
  | remove p => removeCartItem p w
  end.

Definition performAll (ops : list Op) (w : World) : World :=
  fold_left perform ops w.

(** *** The total shown by the cart page *)

Section Catalog.

(** The answer of the product API to a request, by endpoint, and the static
    catalog of the script. *)
Variable fetchAPI : string -> Response.
Variable sampleProducts : list Product.

(** The product of a line, as the loop of [renderCart] finds it: the API
    first, the static catalog when the request is rejected. *)
Definition resolveProduct (item : CartLine) : option Product :=
  match fetchAPI ("/products/products/" +:+ ToString (id item) +:+ "/") with
  | Resolved product => product
  | Rejected =>
      snd <$> list_find (fun p => (IdNum (p_id p) == id item) = true) sampleProducts
  end.



End Catalog.

End Engine.

(** [updateCartTotals(subtotal)]: the texts of the subtotal, discount and
    total fields. *)
Definition updateCartTotals (subtotal : Z) : string * string * string :=
  let discount := 0 in
  let total := subtotal - discount in
  (formatCurrency subtotal, formatCurrency discount, formatCurrency total).

End Cart.

Export Cart.

(** ** Checkout *)

Module Checkout.

(** What the handlers read from the checkout page: the form fields, the
    value of the checked radio button of each group ([None] when
    [querySelector] finds no checked one) and the four total fields. *)
Record CheckoutPage : Type := mkPage {
  form_customer : Customer;
  form_shipping : Shipping;
  checked_shipping_method : option string;
  checked_payment_method : option string;
  checkout_subtotal : string;
  checkout_discount : string;
  checkout_shipping : string;
  checkout_total : string
}.

(** The numbers [updateCheckoutTotals] computes before it formats them. *)
Record Amounts : Type := mkAmounts { am_discount : Z; am_shipping : Z; am_total : Z }.

Definition checkoutAmounts (subtotal : Z) (shippingMethod : option string) : Amounts :=
  let discount := 0 in
  let shipping :=
    match shippingMethod with
    | Some value => if bool_decide (value = "express") then 50000 else 0
    | None => 0
    end in
  {| am_discount := discount; am_shipping := shipping;
     am_total := subtotal - discount + shipping |}.

Definition shippingText (shipping : Z) : string :=
  if 0 <? shipping then formatCurrency shipping else "Miễn phí".

(** [updateCheckoutTotals(subtotal)] *)
Definition updateCheckoutTotals (subtotal : Z) (page : CheckoutPage) : CheckoutPage :=
  let a := checkoutAmounts subtotal (checked_shipping_method page) in
  {| form_customer := form_customer page;
     form_shipping := form_shipping page;
     checked_shipping_method := checked_shipping_method page;
     checked_payment_method := checked_payment_method page;
     checkout_subtotal := formatCurrency subtotal;
     checkout_discount := formatCurrency (am_discount a);
     checkout_shipping := shippingText (am_shipping a);
     checkout_total := formatCurrency (am_total a) |}.

(** The [change] handler of the shipping radio buttons: the subtotal is read
    back from its displayed text.  A text without digits gives [NaN], which
    is displayed as such. *)
Definition onShippingMethodChange (page : CheckoutPage) : CheckoutPage :=
  match parseFloat (strip_non_digits (checkout_subtotal page)) with
  | Some subtotal => updateCheckoutTotals subtotal page
  | None =>
      {| form_customer := form_customer page;
         form_shipping := form_shipping page;
         checked_shipping_method := checked_shipping_method page;
         checked_payment_method := checked_payment_method page;
         checkout_subtotal := "NaN₫";
         checkout_discount := formatCurrency 0;
         checkout_shipping :=
           shippingText (am_shipping (checkoutAmounts 0 (checked_shipping_method page)));
         checkout_total := "NaN₫" |}
  end.

(** [date.getDay()], 0 for Sunday; day 0 was a Thursday. *)
Definition getDay (date : Date) : Z := (date + 4) mod 7.

(** [date.setDate(date.getDate() + days)]: the calendar day [days] later. *)
Definition plusDays (days : Z) (date : Date) : Date := date + days.

Definition skipSunday (date : Date) : Date :=
  if getDay date =? 0 then plusDays 1 date else date.

(** [getEstimatedDelivery(shippingMethod)], with the day [new Date()] falls
    on as an argument.  The source joins the two formatted dates into one
    text; the model keeps the pair. *)
Definition getEstimatedDelivery (today : Date) (shippingMethod : string) : Date * Date :=
  let startDay := skipSunday (plusDays 1 today) in
  let endDay :=
    if bool_decide (shippingMethod = "express")
    then skipSunday (plusDays 2 startDay)
    else skipSunday (plusDays 5 startDay) in
  (startDay, endDay).

(** [document.querySelector('...:checked').value] *)
Definition checkedValue (checked : option string) : Run string :=
  match checked with
  | Some value => mret value
  | None => throw TypeError
  end.

(** The [submit] handler of the checkout form.  [random] is
    [Math.floor(Math.random() * 900000)] and [today] the current day. *)
Definition placeOrder (random : Z) (today : Date) (page : CheckoutPage) : Run unit :=
  w ← get;
  match cart w with
  | [] => modify (showNotification "Giỏ hàng của bạn đang trống!" error)
  | _ :: _ =>
      method ← checkedValue (checked_shipping_method page);
      payment ← checkedValue (checked_payment_method page);
      method' ← checkedValue (checked_shipping_method page);
      let orderData :=
        {| o_id := "ORD-" +:+ Number_toString (100000 + random);
           order_date := today;
           customer := form_customer page;
           shipping := form_shipping page;
           shipping_method := method;
           payment_method := payment;
           items := cart w;
           totals := {| t_subtotal := checkout_subtotal page;
                        t_discount := checkout_discount page;
                        t_shipping := checkout_shipping page;
                        t_total := checkout_total page |};
           estimated_delivery := getEstimatedDelivery today method' |} in
      modify (setStorage (setItem_lastOrder orderData));;
      modify (setCart []);;
      modify saveCart;;
      modify (emit (Navigate "/order_confirmation.html"))
  end.

(** [renderOrderConfirmation]: without a stored order the page leaves for
    the home page; a failure inside is logged. *)
Definition renderOrderConfirmation : Run unit :=
  try_catch
    (w ← get;
     match ls_lastOrder (localStorage w) with
     | None => modify (emit (Navigate "/"))
     | Some text =>
         orderData ← completed (JSON_parse text);
         modify (emit (OrderShown orderData))
     end)
    (fun _ => modify (emit (ConsoleError "Error rendering order confirmation:"))).

End Checkout.

Export Checkout.

(** ** Recently viewed products *)

Module Viewed.

Definition snapshot (product : Product) : ViewedProduct :=
  {| v_id := p_id product;
     v_name := p_name product;
     v_price := p_price product;
     v_original_price := p_original_price product;
     v_image := p_image product;
     v_category := p_category product;
     v_discount_percentage := p_discount_percentage product;
     v_rating := p_rating product |}.

(** The array part of [saveViewedProduct]: [findIndex] and [splice], then
    [unshift] and [slice(0, 10)]. *)
Definition recordView (product : Product) (viewedProducts : list ViewedProduct)
  : list ViewedProduct :=
  let without :=
    match list_find (fun p => v_id p = p_id product) viewedProducts with
    | Some (index, _) => delete index viewedProducts
    | None => viewedProducts
    end in
  take 10 (snapshot product :: without).

(** [localStorage.getItem('viewedProducts') || '[]']: an absent key and an
    empty text both give the text of the empty array. *)
Definition viewedText (ls : LocalStorage) : Blob (list ViewedProduct) :=
  match ls_viewedProducts ls with
  | None => Json []
  | Some (Malformed EmptyString) => Json []
  | Some text => text
  end.

Definition saveViewedProduct (product : Product) : Run unit :=
  try_catch
    (w ← get;
     viewedProducts ← completed (JSON_parse (viewedText (localStorage w)));
     modify (setStorage (setItem_viewedProducts (recordView product viewedProducts))))
    (fun _ => modify (emit (ConsoleError "Error saving viewed product:"))).

Definition saveAll (products : list Product) (w : World) : World :=
  fold_left (fun w product => after (saveViewedProduct product) w) products w.

(** The list a reader finds under [viewedProducts]. *)
Definition viewedList (w : World) : list ViewedProduct :=
  match viewedText (localStorage w) with
  | Json l => l
  | Malformed _ => []
  end.

End Viewed.

Export Viewed.

(** ** Vocabulary of the statements *)

(** Product [p] has a line in cart [c], as [updateCartItem] tests it. *)
Definition has_line (StringToNumber : string -> option Z) (p : Id)
    (c : list CartLine) : Prop :=
  Exists (fun item => loose_eq StringToNumber (id item) p = true) c.

(** An operation that cannot bring a quantity below 1 into the cart. *)
Definition adds_at_least_one (op : Op) : Prop :=
  match op with
  | add _ q => 1 <= q
  | _ => True
  end.

Definition sumZ (l : list Z) : Z := foldr Z.add 0 l.


(** The stored list is a list of at most 10 entries with distinct ids. *)
Definition viewed_ok (l : list ViewedProduct) : Prop :=
  (length l <= 10)%nat /\ NoDup (v_id <$> l).

(** An integer of a magnitude up to 2^53: a sum that is one is exact. *)
Definition safe (z : Z) : Prop := - 2 ^ 53 <= z <= 2 ^ 53.

(** The quantity of the line that [addToCart] finds for a product, 0 when it
    finds none. *)
Definition quantity_found (p : Id) (c : list CartLine) : Z :=
  match list_find (fun item => strict_eq (id item) p = true) c with
  | Some (_, item) => quantity item
  | None => 0
  end.

(** ** Values for the examples *)

(** A string-to-number conversion that reads unsigned decimal numerals (the
    empty string is 0, any other text is [NaN]); it stands for the engine's
    in the examples. *)
Definition readDecimal (s : string) : option Z :=
  (fun d => Z.of_N (N.of_uint d)) <$> NilEmpty.uint_of_string s.

Definition line (i : Id) (q : Z) : CartLine := {| id := i; quantity := q |}.

Definition worldWithCart (c : list CartLine) : World :=
  {| cart := c; localStorage := setItem_cart c emptyStorage; effects := [] |}.

(** A catalog entry with a price, for the examples. *)
Definition priced (i price : Z) : Product :=
  {| p_id := i; p_name := "Ghế"; p_price := price; p_original_price := None;
     p_image := EmptyString; p_category := EmptyString; p_discount_percentage := None;
     p_rating := None; p_review_count := None |}.

(** An API that knows product 1 at 100000 and rejects every other request. *)
Definition onlyProductOne (endpoint : string) : Response :=
  if bool_decide (endpoint = "/products/products/1/")
  then Resolved (Some (priced 1 100000)) else Rejected.

Definition samplePage (method payment : option string) : CheckoutPage :=
  {| form_customer := {| fullname := Some "Lan"; phone := Some "0900000000";
                         email := Some "lan@example.com" |};
     form_shipping := {| address := Some "1 Tràng Tiền"; province := Some "hanoi";
                         district := Some "hoan-kiem"; ward := Some "phuong-1";
                         note := None |};
     checked_shipping_method := method;
     checked_payment_method := payment;
     checkout_subtotal := formatCurrency 250000;
     checkout_discount := formatCurrency 0;
     checkout_shipping := shippingText 0;
     checkout_total := formatCurrency 250000 |}.

Definition storedCart (text : Blob (list CartLine)) : LocalStorage :=
  {| ls_cart := Some text; ls_viewedProducts := None; ls_lastOrder := None;
     ls_couponCode := None |}.

Definition worldWithStore (ls : LocalStorage) : World :=
  {| cart := []; localStorage := ls; effects := [] |}.

(** Case analysis on the Sunday tests of a goal, closed by arithmetic on the
    remainders. *)
Ltac sunday_cases :=
  repeat match goal with
         | |- context [?x =? 0] => destruct (Z.eqb_spec x 0)
         end;
  Z.div_mod_to_equations; lia.

(** ** The quantity controls of the cart page *)

Module CartPage.

Section Handlers.

Variable StringToNumber : string -> option Z.

(** Click on a decrease button of [initCartEvents].  [shown] is
    [parseInt(input.value)], [None] for [NaN]: the new quantity is applied
    only when it is above 0, and [NaN - 1 > 0] is false. *)
Definition onDecrease (productId : Id) (shown : option Z) (w : World) : World :=
  match shown with
  | Some value =>
      let newQuantity := value - 1 in
      if 0 <? newQuantity then updateCartItem StringToNumber productId newQuantity w
      else w
  | None => w
  end.

(** Change of a quantity field: [NaN] and numbers below 1 are replaced by 1. *)
Definition onQuantityChange (productId : Id) (typed : option Z) (w : World) : World :=
  let newQuantity :=
    match typed with
    | Some value => if value <? 1 then 1 else value
    | None => 1
    end in
  updateCartItem StringToNumber productId newQuantity w.

(** Click on the clear button: [clearCart] runs when the user confirms. *)
Definition onClearCart (confirmed : bool) (w : World) : World :=
  if confirmed then clearCart w else w.

Inductive Control : Type :=
  | decrease (productId : Id) (shown : option Z)
  | change (productId : Id) (typed : option Z).

Definition use (w : World) (control : Control) : World :=
  match control with
  | decrease p shown => onDecrease p shown w
  | change p typed => onQuantityChange p typed w
  end.

End Handlers.

End CartPage.

Export CartPage.

(** ** The product page *)

Module ProductPage.

Section Page.

Variable StringToNumber : string -> option Z.
Variable fetchAPI : string -> Response.
Variable sampleProducts : list Product.

(** The product of the page, as [loadProductData] finds it: the API first,
    [getSampleProductById] when the request is rejected. *)
Definition findProduct (productId : Id) : option Product :=
  match fetchAPI ("/products/products/" +:+ ToString productId +:+ "/") with
  | Resolved product => product
  | Rejected =>
      snd <$> list_find
        (fun p => loose_eq StringToNumber (IdNum (p_id p)) productId = true)
        sampleProducts
  end.

(** [showRecentlyViewedProducts]: the stored list without the product of
    the page, cut after 4; the result is the list of the cards drawn, none
    when the stored text does not parse (the failure is logged). *)
Definition showRecentlyViewedProducts (productId : Id) : Run (list ViewedProduct) :=
  try_catch
    (w ← get;
     viewedProducts ← completed (JSON_parse (viewedText (localStorage w)));
     mret (take 4
             (filter (fun p => loose_eq StringToNumber (IdNum (v_id p)) productId = false)
                viewedProducts)))
    (fun _ =>
       modify (emit (ConsoleError "Error showing recently viewed products:"));;
       mret []).

(** [loadProductData(productId)]: [None] when no product is found (an error
    is shown instead of the page), else the product is recorded as viewed
    and the cards of the recently viewed products are drawn. *)
Definition loadProductData (productId : Id) : Run (option (list ViewedProduct)) :=
  match findProduct productId with
  | None => mret None
  | Some product =>
      saveViewedProduct product;;
      cards ← showRecentlyViewedProducts productId;
      mret (Some cards)
  end.

End Page.

End ProductPage.

Export ProductPage.

(** ** The product list page *)

Module ProductList.

Record Category : Type := mkCategory {
  c_id : Z; c_name : string; c_slug : string; c_count : Z
}.

(** [filterState]; the price bounds are the numbers written with the digits
    typed in the price fields, the rating is a number or [null]. *)
Record FilterState : Type := mkFilter {
  f_category : option string;
  f_min : Z;
  f_max : Z;
  f_rating : option Z;
  f_in_stock : bool;
  f_on_sale : bool;
  f_sort : string;
  f_search : string
}.

(** The state after [clearFilters], which is also the initial one. *)
Definition clearedFilter : FilterState :=
  {| f_category := None; f_min := 0; f_max := 50000000; f_rating := None;
     f_in_stock := false; f_on_sale := false; f_sort := "featured";
     f_search := EmptyString |}.

(** [array.sort(compare)].  The engine's sort is stable; with a comparator
    that orders consistently its result is the one of this insertion sort,
    which puts an element before the first element it does not come after. *)
Fixpoint insert_by {A : Type} (compare : A -> A -> Z) (x : A) (l : list A) : list A :=
  match l with
  | [] => [x]
  | y :: rest => if compare x y <=? 0 then x :: l else y :: insert_by compare x rest
  end.

Definition Array_sort {A : Type} (compare : A -> A -> Z) (l : list A) : list A :=
  foldr (insert_by compare) [] l.

(** The comparators of [filterSampleProducts]. *)
Definition byNewest (a b : Product) : Z := p_id b - p_id a.
Definition byPriceAscending (a b : Product) : Z := p_price a - p_price b.
Definition byPriceDescending (a b : Product) : Z := p_price b - p_price a.

(** [b.rating - a.rating], by its sign; a missing rating makes the
    difference [NaN], which a sort reads as 0. *)
Definition byRating (a b : Product) : Z :=
  match p_rating b, p_rating a with
  | Some x, Some y =>
      match Qcompare x y with Lt => -1 | Eq => 0 | Gt => 1 end
  | _, _ => 0
  end.

(** [p.rating >= filterState.rating], false without a rating. *)
Definition rated_at_least (r : Z) (p : Product) : bool :=
  match p_rating p with
  | Some q => Qle_bool (inject_Z r) q
  | None => false
  end.

(** [p.discount_percentage] as a condition: present and not 0. *)
Definition discounted (p : Product) : bool :=
  match p_discount_percentage p with
  | Some d => negb (d =? 0)
  | None => false
  end.

(** [filterSampleProducts()], with the catalog, the categories loaded and
    the filter state as arguments. *)
Definition filterSampleProducts (sampleProducts : list Product)
    (categories : list Category) (filterState : FilterState) : list Product :=
  let filtered := sampleProducts in
  let filtered :=
    match f_category filterState with
    | Some slug =>
        if bool_decide (slug = EmptyString) then filtered
        else
          match list_find (fun c => c_slug c = slug) categories with
          | Some (_, category) =>
              filter (fun p => p_category p = c_name category) filtered
          | None => filtered
          end
    | None => filtered
    end in
  let filtered :=
    match f_rating filterState with
    | Some r =>
        if r =? 0 then filtered
        else filter (fun p => rated_at_least r p = true) filtered
    | None => filtered
    end in
  let filtered :=
    filter (fun p => f_min filterState <= p_price p /\ p_price p <= f_max filterState)
      filtered in
  let filtered :=
    if f_on_sale filterState then filter (fun p => discounted p = true) filtered
    else filtered in
  if bool_decide (f_sort filterState = "newest") then Array_sort byNewest filtered
  else if bool_decide (f_sort filterState = "price_asc")
       then Array_sort byPriceAscending filtered
  else if bool_decide (f_sort filterState = "price_desc")
       then Array_sort byPriceDescending filtered
  else if bool_decide (f_sort filterState = "rating") then Array_sort byRating filtered
  else filtered.

(** [array.slice(start, end)]: a negative index counts from the end, and
    both are brought into the bounds of the array. *)
Definition Array_slice {A : Type} (start finish : Z) (l : list A) : list A :=
  let len := Z.of_nat (length l) in
  let from := if start <? 0 then Z.max (len + start) 0 else Z.min start len in
  let to := if finish <? 0 then Z.max (len + finish) 0 else Z.min finish len in
  take (Z.to_nat (to - from)) (drop (Z.to_nat from) l).

(** The slice of [renderProducts]. *)
Definition productsToShow (currentPage productsPerPage : Z)
    (filteredProducts : list Product) : list Product :=
  let startIndex := (currentPage - 1) * productsPerPage in
  let endIndex :=
    Z.min (startIndex + productsPerPage) (Z.of_nat (length filteredProducts)) in
  Array_slice startIndex endIndex filteredProducts.

(** [Math.ceil(totalProducts / productsPerPage)], for a page size other
    than 0. *)
Definition totalPages (totalProducts productsPerPage : Z) : Z :=
  - ((- totalProducts) / productsPerPage).

(** What the product API answers to the request for the list: an array of
    products, or an object with [results] and, when it has one, [count]. *)
Inductive Listing : Type :=
  | Plain (products : list Product)
  | Paged (results : list Product) (count : option Z).

(** [filteredProducts] and [totalProducts] as [loadProductData] of the list
    page leaves them; [None] is a request that failed, which the sample
    data stand in for. *)
Definition loadedProducts (sampleProducts : list Product) (categories : list Category)
    (filterState : FilterState) (answer : option Listing) : list Product * Z :=
  match answer with
  | Some (Plain products) => (products, Z.of_nat (length products))
  | Some (Paged results count) =>
      (results,
       match count with
       | Some n => if n =? 0 then Z.of_nat (length results) else n
       | None => Z.of_nat (length results)
       end)
  | None =>
      let filtered := filterSampleProducts sampleProducts categories filterState in
      (filtered, Z.of_nat (length filtered))
  end.

(** A button of the page bar. *)
Inductive PageButton : Type :=
  | PageNumber (n : Z)
  | Ellipsis.

(** The first and the last page of the window of [updatePagination]. *)
Definition pageWindow (currentPage pages : Z) : Z * Z :=
  let startPage := Z.max 1 (currentPage - 2) in
  let endPage := Z.min pages (startPage + 4) in
  let startPage := if endPage - startPage <? 4 then Z.max 1 (endPage - 4) else startPage in
  (startPage, endPage).

(** The buttons [updatePagination] adds, in order. *)
Definition pageButtons (currentPage pages : Z) : list PageButton :=
  let '(startPage, endPage) := pageWindow currentPage pages in
  (if 1 <? startPage
   then PageNumber 1 :: (if 2 <? startPage then [Ellipsis] else [])
   else [])
  ++ (PageNumber <$> seqZ startPage (endPage - startPage + 1))
  ++ (if endPage <? pages
      then (if endPage <? pages - 1 then [Ellipsis] else []) ++ [PageNumber pages]
      else []).

(** The page numbers among the buttons. *)
Definition pageNumbers (buttons : list PageButton) : list Z :=
  omap (fun b => match b with PageNumber n => Some n | Ellipsis => None end) buttons.

(** The [disabled] states of the previous and next buttons. *)
Definition previousDisabled (currentPage : Z) : bool := currentPage <=? 1.
Definition nextDisabled (currentPage pages : Z) : bool := pages <=? currentPage.

(** The handlers of the previous and next buttons, on [currentPage]. *)
Definition onPreviousPage (currentPage : Z) : Z :=
  if 1 <? currentPage then currentPage - 1 else currentPage.

Definition onNextPage (currentPage totalProducts productsPerPage : Z) : Z :=
  if currentPage <? totalPages totalProducts productsPerPage
  then currentPage + 1 else currentPage.

End ProductList.

Export ProductList.

(** ** Authentication state and API requests *)

Module Auth.

(** The user object kept under [user_info]. *)
Record User : Type := mkUser {
  username : string;
  full_name : option string;
  role : option string
}.

(** The keys of [localStorage] that [Auth] owns. *)
Record AuthStorage : Type := mkAuth {
  auth_token : option string;
  auth_refresh : option string;
  user_info : option (Blob (option User))
}.

(** A request as [fetch] gets it. *)
Record Request : Type := mkRequest {
  url : string;
  method : option string;
  authorization : option string;
  body : option string
}.

(** The answer to a request: its status and its body as [json()] decodes
    it, [None] for a body that [json()] rejects. *)
Record Reply (B : Type) : Type := mkReply { status : Z; json : option B }.
Arguments mkReply {B} status json.
Arguments status {B} r.
Arguments json {B} r.

(** [response.ok] *)
Definition ok {B : Type} (r : Reply B) : bool := (200 <=? status r) && (status r <=? 299).

(** Why a call did not return. *)
Inductive Failure : Type :=
  | NetworkError
  | ApiRequestFailed (status : Z)
  | SessionExpired
  | BodyRejected
  | UserInfoRejected.

Inductive Outcome (A : Type) : Type :=
  | Returned (a : A)
  | Thrown (f : Failure).
Arguments Returned {A} a.
Arguments Thrown {A} f.

(** The part of the browser these functions touch: the keys of [Auth], the
    requests sent and what the user gets to see, oldest first. *)
Record Browser : Type := mkBrowser {
  auth : AuthStorage;
  requests : list Request;
  shown : list Effect
}.

Definition Act (A : Type) : Type := Browser -> Outcome A * Browser.

#[export] Instance Act_ret : MRet Act := fun A a b => (Returned a, b).

#[export] Instance Act_bind : MBind Act := fun A B f m b =>
  match m b with
  | (Returned a, b') => f a b'
  | (Thrown e, b') => (Thrown e, b')
  end.

Definition fail {A : Type} (f : Failure) : Act A := fun b => (Thrown f, b).

Definition attempt {A : Type} (body : Act A) (handler : Failure -> Act A) : Act A :=
  fun b =>
    match body b with
    | (Returned a, b') => (Returned a, b')
    | (Thrown f, b') => handler f b'
    end.

Definition read : Act Browser := fun b => (Returned b, b).

Definition setAuth (f : AuthStorage -> AuthStorage) : Act unit :=
  fun b => (Returned tt, mkBrowser (f (auth b)) (requests b) (shown b)).

Definition show (e : Effect) : Act unit :=
  fun b => (Returned tt, mkBrowser (auth b) (requests b) (shown b ++ [e])).

(** A stored text as a condition: present and not empty. *)
Definition nonempty (text : option string) : bool :=
  match text with
  | Some t => negb (bool_decide (t = EmptyString))
  | None => false
  end.

(** [Auth.setAuthToken(token, refreshToken, user)] *)
Definition setAuthToken (token refreshToken : string) (user : option User)
    (a : AuthStorage) : AuthStorage :=
  {| auth_token := Some token; auth_refresh := Some refreshToken;
     user_info := Some (Json user) |}.

Definition getAuthToken (a : AuthStorage) : option string := auth_token a.

Definition getRefreshToken (a : AuthStorage) : option string := auth_refresh a.

(** [Auth.getUserInfo()]: [userStr ? JSON.parse(userStr) : null] *)
Definition getUserInfo (a : AuthStorage) : Outcome (option User) :=
  match user_info a with
  | None => Returned None
  | Some (Json user) => Returned user
  | Some (Malformed text) =>
      if bool_decide (text = EmptyString) then Returned None else Thrown UserInfoRejected
  end.

(** [Auth.clearAuth()] *)
Definition clearAuth (a : AuthStorage) : AuthStorage :=
  {| auth_token := None; auth_refresh := None; user_info := None |}.

(** [Auth.isAuthenticated()] *)
Definition isAuthenticated (a : AuthStorage) : bool := nonempty (getAuthToken a).

(** [Auth.getUserRole()]: [user ? user.role : null] *)
Definition getUserRole (a : AuthStorage) : Outcome (option string) :=
  match getUserInfo a with
  | Returned (Some user) => Returned (role user)
  | Returned None => Returned None
  | Thrown f => Thrown f
  end.

Definition hasRole (name : string) (a : AuthStorage) : Outcome bool :=
  match getUserRole a with
  | Returned r => Returned (bool_decide (r = Some name))
  | Thrown f => Thrown f
  end.

Definition isAdmin : AuthStorage -> Outcome bool := hasRole "ADMIN".
Definition isManager : AuthStorage -> Outcome bool := hasRole "MANAGER".
Definition isSalesStaff : AuthStorage -> Outcome bool := hasRole "SALES_STAFF".
Definition isInventoryStaff : AuthStorage -> Outcome bool := hasRole "INVENTORY_STAFF".

(** [Auth.isStaff()] *)
Definition isStaff (a : AuthStorage) : Outcome bool :=
  match getUserRole a with
  | Returned r =>
      Returned (bool_decide (r = Some "ADMIN") || bool_decide (r = Some "MANAGER")
                || bool_decide (r = Some "SALES_STAFF")
                || bool_decide (r = Some "INVENTORY_STAFF"))
  | Thrown f => Thrown f
  end.

(** [text.includes(part)] *)
Fixpoint includes (part text : string) : bool :=
  String.prefix part text
  || match text with
     | EmptyString => false
     | String _ rest => includes part rest
     end.

Definition lift {A : Type} (o : Outcome A) : Act A := fun b => (o, b).

Definition skip : Act unit := mret tt.

Section Requests.

(** The kind of body the caller expects, the server as it answers a request
    ([None] when [fetch] itself fails) and as it answers a refresh of the
    token with the access token of the new session. *)
Context {B : Type}.
Variable server : Request -> option (Reply B).
Variable refresh : Request -> option (Reply string).

Definition send (r : Request) : Act (Reply B) :=
  fun b =>
    let b' := mkBrowser (auth b) (requests b ++ [r]) (shown b) in
    match server r with
    | Some reply => (Returned reply, b')
    | None => (Thrown NetworkError, b')
    end.

Definition sendRefresh (r : Request) : Act (Reply string) :=
  fun b =>
    let b' := mkBrowser (auth b) (requests b ++ [r]) (shown b) in
    match refresh r with
    | Some reply => (Returned reply, b')
    | None => (Thrown NetworkError, b')
    end.

Definition decoded {A : Type} (r : Reply A) : Act A :=
  match json r with
  | Some v => mret v
  | None => fail BodyRejected
  end.

Definition bearer (token : option string) : string :=
  "Bearer " +:+ match token with Some t => t | None => "null" end.

(** [fetchAPI(endpoint, options)], the options being the method, the
    [Authorization] header and the body of the caller. *)
Definition fetchAPI (endpoint : string) (options : Request) : Act B :=
  attempt
    (b ← read;
     let headers :=
       if isAuthenticated (auth b) && negb (includes "/token/" endpoint)
       then Some (bearer (getAuthToken (auth b)))
       else authorization options in
     response ← send (mkRequest endpoint (method options) headers (body options));
     if bool_decide (status response = 401) && nonempty (getRefreshToken (auth b))
     then
       refreshResponse ←
         sendRefresh (mkRequest "/token/refresh/" (Some "POST") None
                        (getRefreshToken (auth b)));
       if ok refreshResponse
       then
         access ← decoded refreshResponse;
         b' ← read;
         user ← lift (getUserInfo (auth b'));
         setAuth (setAuthToken access
                    (default "null" (getRefreshToken (auth b'))) user);;
         retryResponse ←
           send (mkRequest endpoint (method options) (Some (bearer (Some access)))
                   (body options));
         if ok retryResponse then decoded retryResponse
         else fail (ApiRequestFailed (status retryResponse))
       else
         setAuth clearAuth;;
         show (Navigate "/pages/login.html");;
         fail SessionExpired
     else if ok response then decoded response
     else fail (ApiRequestFailed (status response)))
    (fun f => show (ConsoleError "API request error:");; fail f).

(** [handleLogout()]; [updateAuthUI], which it calls once the credentials
    are removed, only hides and shows elements of the page then. *)
Definition handleLogout : Act unit :=
  attempt
    (b ← read;
     fetchAPI "/users/logout/"
       (mkRequest "/users/logout/" (Some "POST") (Some (bearer (getAuthToken (auth b))))
          None);;
     setAuth clearAuth;;
     show (Navigate "/"))
    (fun _ =>
       show (ConsoleError "Logout error:");;
       setAuth clearAuth;;
       show (Navigate "/")).

End Requests.

(** The pages that ask for a session. *)
Definition restrictedPages : list string :=
  ["checkout.html"; "user_orders.html"; "admin_dashboard.html";
   "inventory_dashboard.html"; "sales_dashboard.html"].

(** The checks the [DOMContentLoaded] handler makes on the path of the
    page; [encodeURIComponent] is a parameter. *)
Definition guardPage (encodeURIComponent : string -> string) (pathname : string)
  : Act unit :=
  b ← read;
  let needsLogin := existsb (fun page => includes page pathname) restrictedPages in
  (if needsLogin && negb (isAuthenticated (auth b))
   then show (Navigate ("/pages/login.html?redirect=" +:+ encodeURIComponent pathname))
   else skip);;
  (if includes "admin_dashboard.html" pathname
   then admin ← lift (isAdmin (auth b));
        if negb admin then show (Navigate "/") else skip
   else skip);;
  (if includes "inventory_dashboard.html" pathname
   then inventory ← lift (isInventoryStaff (auth b));
        if (inventory : bool) then skip
        else admin ← lift (isAdmin (auth b));
             if (admin : bool) then skip
             else manager ← lift (isManager (auth b));
                  if (manager : bool) then skip else show (Navigate "/")
   else skip);;
  (if includes "sales_dashboard.html" pathname
    then sales ← lift (isSalesStaff (auth b));
         if (sales : bool) then skip
         else admin ← lift (isAdmin (auth b));
              if (admin : bool) then skip
              else manager ← lift (isManager (auth b));
                   if (manager : bool) then skip else show (Navigate "/")
    else skip).

End Auth.

Export Auth.

(** ** The stars of a rating *)

Module Rating.

Inductive Star : Type := FullStar | HalfStar | EmptyStar.

(** [rating % 1]: what is left of the rating after its integer part, with
    the sign of the rating. *)
Definition remainder_1 (rating : Q) : Q :=
  (rating - inject_Z (Z.quot (Qnum rating) (Zpos (Qden rating))))%Q.

(** [updateRatingStars(rating)]: the stars put into the container, in
    order. *)
Definition updateRatingStars (rating : Q) : list Star :=
  let fullStars := Qfloor rating in
  let hasHalfStar := Qle_bool (1 # 2) (remainder_1 rating) in
  let emptyStars := 5 - fullStars - (if hasHalfStar then 1 else 0) in
  replicate (Z.to_nat fullStars) FullStar
  ++ (if hasHalfStar then [HalfStar] else [])
  ++ replicate (Z.to_nat emptyStars) EmptyStar.

End Rating.

Export Rating.

(** ** Vocabulary of the further statements *)

(** The entries of a list that are the first with their id, in order. *)
Fixpoint distinct_by_id (l : list ViewedProduct) : list ViewedProduct :=
  match l with
  | [] => []
  | x :: rest => x :: filter (fun y => v_id y <> v_id x) (distinct_by_id rest)
  end.

(** What the filters of a state ask of a product, the category apart. *)
Definition passes (filterState : FilterState) (p : Product) : Prop :=
  (f_min filterState <= p_price p <= f_max filterState) /\
  (f_on_sale filterState = true -> discounted p = true) /\
  (forall r, f_rating filterState = Some r -> r <> 0 -> rated_at_least r p = true).

(** The list [filterSampleProducts] has before it sorts. *)
Definition unsorted (sampleProducts : list Product) (categories : list Category)
    (filterState : FilterState) : list Product :=
  filterSampleProducts sampleProducts categories
    {| f_category := f_category filterState; f_min := f_min filterState;
       f_max := f_max filterState; f_rating := f_rating filterState;
       f_in_stock := f_in_stock filterState; f_on_sale := f_on_sale filterState;
       f_sort := "featured"; f_search := f_search filterState |}.

(** A run of page buttons that goes on after page [a]: the next number, or
    an ellipsis followed by a number further on. *)
Inductive bar_after : Z -> list PageButton -> Prop :=
  | bar_done a : bar_after a []
  | bar_next a rest :
      bar_after (a + 1) rest -> bar_after a (PageNumber (a + 1) :: rest)
  | bar_gap a b rest :
      a + 1 < b -> bar_after b rest -> bar_after a (Ellipsis :: PageNumber b :: rest).

(** The first request of [fetchAPI]: the endpoint with the options of the
    caller, under the token of the session when there is one and the
    endpoint is not one of the token endpoints. *)
Definition firstRequest (endpoint : string) (options : Request) (a : AuthStorage)
  : Request :=
  mkRequest endpoint (method options)
    (if isAuthenticated a && negb (includes "/token/" endpoint)
     then Some (bearer (getAuthToken a)) else authorization options)
    (body options).

(** The request that refreshes the token of a session. *)
Definition refreshRequest (a : AuthStorage) : Request :=
  mkRequest "/token/refresh/" (Some "POST") None (getRefreshToken a).

(** What [full] full stars and [half] half stars stand for. *)
Definition halves (full half : nat) : Q :=
  (inject_Z (Z.of_nat full) + inject_Z (Z.of_nat half) * (1 # 2))%Q.

(** The stored user has one of the [roles]. *)
Definition holds (roles : list string) (a : AuthStorage) : Prop :=
  exists r, getUserRole a = Returned (Some r) /\ r ∈ roles.

(** Sessions and servers for the examples. *)
Definition signedIn (r : string) : Browser :=
  mkBrowser
    (mkAuth (Some "token-1") (Some "refresh-1")
       (Some (Json (Some (mkUser "lan" None (Some r))))))
    [] [].

Definition guest : Browser := mkBrowser (mkAuth None None None) [] [].

Definition plainOptions : Request := mkRequest EmptyString None None None.

(** A server that knows the token "token-2" only. *)
Definition strictServer (r : Request) : option (Reply Z) :=
  if bool_decide (authorization r = Some "Bearer token-2")
  then Some (mkReply 200 (Some 7)) else Some (mkReply 401 None).

Definition grantingRefresh (r : Request) : option (Reply string) :=
  Some (mkReply 200 (Some "token-2")).

Definition refusingRefresh (r : Request) : option (Reply string) :=
  Some (mkReply 401 None).

(** * Properties *)

(** ** Identifiers *)

Lemma strict_eq_true a b : strict_eq a b = true <-> a = b.
Proof. unfold strict_eq. apply bool_decide_eq_true. Qed.

Lemma strict_eq_refl a : strict_eq a a = true.
Proof. by apply strict_eq_true. Qed.

Lemma strict_loose StringToNumber a b :
  strict_eq a b = true -> loose_eq StringToNumber a b = true.
Proof.
  intros ->%strict_eq_true. destruct b; simpl; by apply bool_decide_eq_true.
Qed.

(** ** Currency texts *)

Lemma strip_as_filter (text : string) :
  list_ascii_of_string (strip_non_digits text)
  = List.filter is_digit (list_ascii_of_string text).
Proof.
  induction text as [|c rest IH]; simpl; [done|].
  destruct (is_digit c); simpl; by rewrite IH.
Qed.

Lemma list_ascii_of_append (a b : string) :
  list_ascii_of_string (a +:+ b) = list_ascii_of_string a ++ list_ascii_of_string b.
Proof. induction a as [|c a IH]; simpl; [done|]. by rewrite IH. Qed.

Lemma group_rev_four a b c d (l : list ascii) :
  group_rev (a :: b :: c :: d :: l) = [a; b; c; "."%char] ++ group_rev (d :: l).
Proof. reflexivity. Qed.

(** The separators are all that grouping adds. *)
Lemma filter_group_rev (l : list ascii) :
  List.filter is_digit (group_rev l) = List.filter is_digit l.
Proof.
  assert (H : forall n (k : list ascii),
             (length k <= n)%nat ->
             List.filter is_digit (group_rev k) = List.filter is_digit k).
  { induction n as [|n IH]; intros k Hk.
    - destruct k; [done|simpl in Hk; lia].
    - destruct k as [|a [|b [|c [|d k]]]]; try done.
      rewrite group_rev_four, List.filter_app, IH by (simpl in *; lia).
      change (a :: b :: c :: d :: k) with ([a; b; c] ++ d :: k).
      rewrite List.filter_app. reflexivity. }
  by apply (H (length l)).
Qed.

Lemma filter_all (f : ascii -> bool) (l : list ascii) :
  forallb f l = true -> List.filter f l = l.
Proof.
  induction l as [|c l IH]; simpl; [done|].
  intros [Hc Hl]%andb_true_iff. rewrite Hc. by rewrite IH.
Qed.

Lemma decimal_digits (d : Decimal.uint) :
  forallb is_digit (list_ascii_of_string (NilEmpty.string_of_uint d)) = true.
Proof. induction d; simpl; auto. Qed.

Lemma leading_digits_all (text : string) :
  forallb is_digit (list_ascii_of_string text) = true -> leading_digits text = text.
Proof.
  induction text as [|c rest IH]; simpl; [done|].
  intros [Hc Hl]%andb_true_iff. rewrite Hc. by rewrite IH.
Qed.

Lemma strip_group (digits suffix : string) :
  forallb is_digit (list_ascii_of_string digits) = true ->
  strip_non_digits (group digits +:+ suffix) = digits +:+ strip_non_digits suffix.
Proof.
  intros Hd.
  rewrite <- (string_of_list_ascii_of_string (strip_non_digits _)).
  rewrite <- (string_of_list_ascii_of_string (digits +:+ _)).
  f_equal. rewrite strip_as_filter, !list_ascii_of_append, List.filter_app.
  f_equal; [|by rewrite strip_as_filter]. unfold group.
  rewrite list_ascii_of_string_of_list_ascii, List.filter_rev, filter_group_rev.
  rewrite <- List.filter_rev, rev_involutive. by apply filter_all.
Qed.

Lemma parseFloat_decimal (m : N) : parseFloat (decimal m) = Some (Z.of_N m).
Proof.
  unfold parseFloat, decimal.
  rewrite leading_digits_all by apply decimal_digits.
  pose proof (NilEmpty.usu (N.to_uint m)) as Husu.
  destruct (NilEmpty.string_of_uint (N.to_uint m)) as [|c rest] eqn:Htext.
  - simpl in Husu. injection Husu as Hnil.
    pose proof (Unsigned.of_to m) as Hm. rewrite <- Hnil in Hm. simpl in Hm.
    subst m. discriminate Htext.
  - rewrite Husu. simpl. by rewrite Unsigned.of_to.
Qed.

Lemma format_roundtrip (n : Z) :
  0 <= n -> parseFloat (strip_non_digits (formatCurrency n)) = Some n.
Proof.
  intros Hn. unfold formatCurrency, toLocaleString_viVN.
  rewrite (proj2 (Z.ltb_ge n 0)) by done.
  rewrite strip_group by apply decimal_digits.
  change (strip_non_digits "₫") with EmptyString.
  replace (decimal (Z.to_N n) +:+ EmptyString) with (decimal (Z.to_N n)).
  - rewrite parseFloat_decimal. f_equal. lia.
  - generalize (decimal (Z.to_N n)). intros t.
    induction t as [|c t IH]; [done|].
    change (String c t = String c (t +:+ EmptyString)). by f_equal.
Qed.

(** C10.  For an amount [n] that is not negative, removing everything but
    the digits from [formatCurrency(n)] and parsing the rest gives [n]; so
    the handler of a shipping change, which reads the subtotal back from its
    displayed text, recomputes the totals from the subtotal displayed. *)
Theorem formatCurrency_digits_roundtrip (n : Z) :
  0 <= n ->
  parseFloat (strip_non_digits (formatCurrency n)) = Some n /\
  forall page : CheckoutPage,
    checkout_subtotal page = formatCurrency n ->
    onShippingMethodChange page = updateCheckoutTotals n page.
Proof.
  intros Hn. split; [by apply format_roundtrip|].
  intros page Htext. unfold onShippingMethodChange.
  by rewrite Htext, format_roundtrip.
Qed.

Lemma formatCurrency_digits_roundtrip_witness :
  formatCurrency 1234567 = "1.234.567₫" /\
  parseFloat (strip_non_digits (formatCurrency 1234567)) = Some 1234567.
Proof.
  split; [reflexivity|].
  assert (H : 0 <= 1234567) by lia.
  exact (proj1 (formatCurrency_digits_roundtrip 1234567 H)).
Defined.

(** ** Adding to the cart *)

Lemma toDouble_safe z : safe z -> toDouble z = z.
Proof.
  intros Hz. unfold toDouble, safe in *.
  destruct (Z.leb_spec (Z.abs z) (2 ^ 53)); [done|lia].
Qed.

Lemma Number_add_safe a b : safe (a + b) -> Number_add a b = a + b.
Proof. apply toDouble_safe. Qed.

(** Rounding never takes a count of one or more below one. *)
Lemma toDouble_positive z : 1 <= z -> 1 <= toDouble z.
Proof.
  intros Hz. unfold toDouble.
  destruct (Z.leb_spec (Z.abs z) (2 ^ 53)) as [|Hbig]; [done|].
  rewrite Z.abs_eq in * by lia. rewrite Z.sgn_pos by lia.
  assert (Hlog : 53 <= Z.log2 z) by (apply Z.log2_le_pow2; lia).
  pose proof (Z.log2_spec z ltac:(lia)) as [Hlow _].
  set (ulp := 2 ^ (Z.log2 z - 52)).
  assert (Hulp : 0 < ulp <= z).
  { split; [apply Z.pow_pos_nonneg; lia|].
    etrans; [|exact Hlow]. apply Z.pow_le_mono_r; lia. }
  assert (Hbelow : 1 <= z / ulp) by (apply Z.div_le_lower_bound; lia).
  repeat case_match; nia.
Qed.

Lemma increase_increase n m item :
  safe (quantity item + n) ->
  increase m (increase n item) = increase (n + m) item.
Proof.
  intros Hn. unfold increase, Number_add. simpl. f_equal.
  rewrite (toDouble_safe _ Hn). f_equal. lia.
Qed.

Lemma ids_alter (f : CartLine -> CartLine) i (c : list CartLine) :
  (forall item, id (f item) = id item) -> id <$> alter f i c = id <$> c.
Proof.
  intros Hf. rewrite (list_fmap_alter id f (fun x => x)).
  - by apply list_alter_id.
  - apply Forall_forall. intros x _. apply Hf.
Qed.

(** A line found by a search on ids stays the one found after its quantity
    has been changed in place. *)
Lemma list_find_alter_same_id (test : Id -> bool)
    (f : CartLine -> CartLine) i item (c : list CartLine) :
  (forall x, id (f x) = id x) ->
  list_find (fun x => test (id x) = true) c = Some (i, item) ->
  list_find (fun x => test (id x) = true) (alter f i c) = Some (i, f item).
Proof.
  intros Hf (Hi & HP & Hbefore)%list_find_Some. apply list_find_Some.
  split_and!.
  - by rewrite list_lookup_alter_eq, Hi.
  - by rewrite Hf.
  - intros j y Hj Hlt. rewrite list_lookup_alter_ne in Hj by lia. eauto.
Qed.

Lemma add_line_found p q i item (c : list CartLine) :
  list_find (fun x => strict_eq (id x) p = true) c = Some (i, item) ->
  add_line p q c = alter (increase q) i c.
Proof. intros H. unfold add_line. by rewrite H. Qed.

Lemma add_line_new p q (c : list CartLine) :
  list_find (fun x => strict_eq (id x) p = true) c = None ->
  add_line p q c = c ++ [line p q].
Proof. intros H. unfold add_line. by rewrite H. Qed.

Lemma add_line_twice p n m (c : list CartLine) :
  safe (n + m) ->
  safe (quantity_found p c + n) ->
  add_line p m (add_line p n c) = add_line p (n + m) c.
Proof.
  intros Hsum Hline. unfold quantity_found in Hline.
  destruct (list_find (fun x => strict_eq (id x) p = true) c) as [[i item]|] eqn:Hfind.
  - rewrite (add_line_found p n i item), (add_line_found p (n + m) i item) by done.
    rewrite (add_line_found p m i (increase n item)).
    + rewrite list_alter_alter_eq.
      apply list_find_Some in Hfind as (Hi & _ & _).
      apply list_eq. intros k. destruct (decide (k = i)) as [->|Hk].
      * rewrite !list_lookup_alter_eq, Hi. simpl. f_equal.
        by apply increase_increase.
      * by rewrite !list_lookup_alter_ne.
    + by apply (list_find_alter_same_id (fun i => strict_eq i p)).
  - rewrite (add_line_new p n), (add_line_new p (n + m)) by done.
    rewrite (add_line_found p m (length c) (line p n)).
    + rewrite alter_app_r_alt by lia. rewrite Nat.sub_diag. simpl.
      unfold increase, line. simpl. by rewrite (Number_add_safe _ _ Hsum).
    + rewrite list_find_app_r by done. simpl.
      rewrite decide_True by apply strict_eq_refl. done.
Qed.

(** C8.  Adding [n] and then [m] of a product gives the cart, in memory and
    persisted, that adding [n + m] at once gives, when the sum of [n] and
    [m] and the sum of [n] and the quantity of the line of the product are
    exact, that is, of a magnitude up to 2^53; from the empty cart,
    [add(42, 1)] then [add(42, 2)] leaves the single line [{42, 3}]. *)
Theorem add_then_add_is_add_sum (w : World) (p : Id) (n m : Z) :
  safe (n + m) ->
  safe (quantity_found p (cart w) + n) ->
  cart (addToCart p m (addToCart p n w)) = cart (addToCart p (n + m) w) /\
  localStorage (addToCart p m (addToCart p n w))
  = localStorage (addToCart p (n + m) w) /\
  cart (addToCart (IdNum 42) 2 (addToCart (IdNum 42) 1 freshWorld))
  = [line (IdNum 42) 3].
Proof.
  intros Hsum Hline. split_and!; [| |reflexivity].
  all: unfold addToCart, showNotification, updateCartCount, saveCart,
    setStorage, setCart, emit; simpl.
  all: by rewrite add_line_twice.
Qed.

Lemma add_then_add_is_add_sum_witness :
  cart (addToCart (IdStr "7") 2 (addToCart (IdStr "7") 1
          (worldWithCart [line (IdStr "7") 5; line (IdNum 42) 1])))
  = cart (addToCart (IdStr "7") (1 + 2)
            (worldWithCart [line (IdStr "7") 5; line (IdNum 42) 1])).
Proof.
  apply (add_then_add_is_add_sum
           (worldWithCart [line (IdStr "7") 5; line (IdNum 42) 1]) (IdStr "7") 1 2);
    vm_compute; split; discriminate.
Defined.

(** Beyond 2^53 the two ways part: on a line of 2^53 units each add of one
    unit is lost in the rounding of the sum, and an add of two is not. *)
Lemma add_then_add_loses_units :
  cart (addToCart (IdNum 42) 1 (addToCart (IdNum 42) 1
          (worldWithCart [line (IdNum 42) 9007199254740992])))
  = [line (IdNum 42) 9007199254740992] /\
  cart (addToCart (IdNum 42) (1 + 1)
          (worldWithCart [line (IdNum 42) 9007199254740992]))
  = [line (IdNum 42) 9007199254740994] /\
  cart (addToCart (IdNum 42) 1 (addToCart (IdNum 42) 1
          (worldWithCart [line (IdNum 42) 9007199254740992])))
  <> cart (addToCart (IdNum 42) (1 + 1)
             (worldWithCart [line (IdNum 42) 9007199254740992])).
Proof. split_and!; [reflexivity|reflexivity|discriminate]. Qed.

(** ** Changing and removing lines *)

Section CartLines.

Variable StringToNumber : string -> option Z.

Lemma has_line_find p (c : list CartLine) :
  has_line StringToNumber p c ->
  exists i item,
    list_find (fun x => loose_eq StringToNumber (id x) p = true) c = Some (i, item).
Proof.
  intros (item & Hin & Heq)%Exists_exists.
  destruct (list_find_elem_of (fun x => loose_eq StringToNumber (id x) p = true)
              c item Hin Heq) as [[i x] Hfind].
  eauto.
Qed.

Lemma no_line_find p (c : list CartLine) :
  ~ has_line StringToNumber p c ->
  list_find (fun x => loose_eq StringToNumber (id x) p = true) c = None.
Proof.
  intros Hno. apply list_find_None, Forall_forall. intros item Hin Heq.
  apply Hno, Exists_exists. eauto.
Qed.

(** C9.  [setQuantity(p, q)] on a cart that has a line for [p]: with
    [q <= 0] it is [remove(p)]; with [q > 0] the first line for [p] gets
    quantity [q], every other position and the length of the cart stay as
    they were, and the new cart is what is persisted.  On a cart without a
    line for [p] nothing changes, in memory or in the store, whatever [q]. *)
Theorem setQuantity_cases (w : World) (p : Id) (q : Z) :
  (q <= 0 -> has_line StringToNumber p (cart w) ->
   updateCartItem StringToNumber p q w = removeCartItem StringToNumber p w) /\
  (0 < q -> has_line StringToNumber p (cart w) ->
   exists i item,
     cart w !! i = Some item /\
     loose_eq StringToNumber (id item) p = true /\
     (forall j other, cart w !! j = Some other -> (j < i)%nat ->
                      loose_eq StringToNumber (id other) p = false) /\
     let w' := updateCartItem StringToNumber p q w in
     cart w' !! i = Some (line (id item) q) /\
     (forall j, j <> i -> cart w' !! j = cart w !! j) /\
     length (cart w') = length (cart w) /\
     ls_cart (localStorage w') = Some (Json (cart w'))) /\
  (~ has_line StringToNumber p (cart w) ->
   updateCartItem StringToNumber p q w = w).
Proof.
  split_and!.
  - intros Hq (i & item & Hfind)%has_line_find. unfold updateCartItem.
    rewrite Hfind. by rewrite (proj2 (Z.leb_le q 0)).
  - intros Hq (i & item & Hfind)%has_line_find. exists i, item.
    unfold updateCartItem. rewrite Hfind.
    rewrite (proj2 (Z.leb_gt q 0)) by done.
    apply list_find_Some in Hfind as (Hi & Hp & Hbefore).
    split_and!; [done|done| |simpl..].
    + intros j other Hj Hlt. specialize (Hbefore j other Hj Hlt).
      by destruct (loose_eq StringToNumber (id other) p).
    + by rewrite list_lookup_alter_eq, Hi.
    + intros j Hne. by apply list_lookup_alter_ne.
    + apply length_alter.
    + done.
  - intros Hno%no_line_find. unfold updateCartItem. by rewrite Hno.
Qed.

(** ** Invariants of the cart *)

Lemma add_line_ids_NoDup p q (c : list CartLine) :
  NoDup (id <$> c) -> NoDup (id <$> add_line p q c).
Proof.
  intros Hc. unfold add_line.
  destruct (list_find _ c) as [[i item]|] eqn:Hfind.
  - by rewrite ids_alter.
  - rewrite fmap_app. apply NoDup_app. split_and!; [done| |apply NoDup_singleton].
    intros x Hx ->%list_elem_of_singleton. simpl in Hx.
    apply list_elem_of_fmap in Hx as (item & -> & Hin).
    apply list_find_None in Hfind. rewrite Forall_forall in Hfind.
    apply (Hfind item Hin), strict_eq_refl.
Qed.

Lemma remove_line_ids_NoDup p (c : list CartLine) :
  NoDup (id <$> c) -> NoDup (id <$> remove_line StringToNumber p c).
Proof.
  intros Hc. eapply sublist_NoDup; [exact Hc|].
  apply fmap_sublist, sublist_filter.
Qed.

Lemma remove_line_Forall (P : CartLine -> Prop) p (c : list CartLine) :
  Forall P c -> Forall P (remove_line StringToNumber p c).
Proof.
  rewrite !Forall_forall. intros Hc item Hin.
  apply list_elem_of_filter in Hin as [_ Hin]. by apply Hc.
Qed.

Lemma perform_ids_NoDup op (w : World) :
  NoDup (id <$> cart w) -> NoDup (id <$> cart (perform StringToNumber w op)).
Proof.
  intros Hw. destruct op as [p q|p q|p]; simpl.
  - by apply add_line_ids_NoDup.
  - unfold updateCartItem. destruct (list_find _ (cart w)) as [[i item]|]; [|done].
    destruct (q <=? 0); simpl.
    + by apply remove_line_ids_NoDup.
    + by rewrite ids_alter.
  - by apply remove_line_ids_NoDup.
Qed.

(** Whatever the operations and their arguments, no two lines of the cart
    have the same id. *)
Lemma cart_ids_unique (ops : list Op) :
  NoDup (id <$> cart (performAll StringToNumber ops freshWorld)).
Proof.
  unfold performAll.
  assert (H : NoDup (id <$> cart freshWorld)) by apply NoDup_nil_2.
  revert H. generalize freshWorld. induction ops as [|op ops IH]; intros w Hw.
  - done.
  - simpl. apply IH. by apply perform_ids_NoDup.
Qed.

Lemma perform_quantities op (w : World) :
  adds_at_least_one op ->
  Forall (fun item => 1 <= quantity item) (cart w) ->
  Forall (fun item => 1 <= quantity item) (cart (perform StringToNumber w op)).
Proof.
  intros Hop Hw. destruct op as [p q|p q|p]; simpl in *.
  - unfold add_line. destruct (list_find _ (cart w)) as [[i item]|].
    + apply Forall_alter; [done|]. intros x _ Hx. simpl.
      apply toDouble_positive. lia.
    + apply Forall_app. split; [done|]. by apply Forall_singleton.
  - unfold updateCartItem. destruct (list_find _ (cart w)) as [[i item]|]; [|done].
    destruct (q <=? 0) eqn:Hq; simpl.
    + by apply remove_line_Forall.
    + apply Forall_alter; [done|]. intros x _ _. simpl. apply Z.leb_gt in Hq. lia.
  - by apply remove_line_Forall.
Qed.

(** When every [add] of a sequence has a quantity of at least 1, every line
    of the resulting cart has a quantity of at least 1. *)
Lemma cart_quantities_positive (ops : list Op) :
  Forall adds_at_least_one ops ->
  Forall (fun item => 1 <= quantity item)
    (cart (performAll StringToNumber ops freshWorld)).
Proof.
  unfold performAll.
  assert (H : Forall (fun item => 1 <= quantity item) (cart freshWorld))
    by apply Forall_nil_2.
  revert H. generalize freshWorld. induction ops as [|op ops IH]; intros w Hw Hops.
  - done.
  - simpl. apply Forall_cons in Hops as [Hop Hops]. apply IH; [|done].
    by apply perform_quantities.
Qed.

End CartLines.

Lemma setQuantity_cases_witness :
  updateCartItem readDecimal (IdStr "2") 0
    (worldWithCart [line (IdStr "1") 2; line (IdStr "2") 1])
  = removeCartItem readDecimal (IdStr "2")
      (worldWithCart [line (IdStr "1") 2; line (IdStr "2") 1]) /\
  (exists i item,
      [line (IdStr "1") 2; line (IdStr "2") 1] !! i = Some item /\
      cart (updateCartItem readDecimal (IdStr "2") 7
              (worldWithCart [line (IdStr "1") 2; line (IdStr "2") 1])) !! i
      = Some (line (id item) 7)) /\
  updateCartItem readDecimal (IdStr "3") 7
    (worldWithCart [line (IdStr "1") 2; line (IdStr "2") 1])
  = worldWithCart [line (IdStr "1") 2; line (IdStr "2") 1].
Proof.
  pose (w := worldWithCart [line (IdStr "1") 2; line (IdStr "2") 1]).
  assert (Hhas : has_line readDecimal (IdStr "2") (cart w)).
  { apply Exists_cons_tl, Exists_cons_hd. reflexivity. }
  assert (Hno : ~ has_line readDecimal (IdStr "3") (cart w)).
  { intros H. apply Exists_exists in H as (item & Hin & Heq).
    simpl in Hin. rewrite !elem_of_cons, elem_of_nil in Hin.
    destruct Hin as [-> | [-> | []]]; discriminate Heq. }
  split_and!.
  - apply (proj1 (setQuantity_cases readDecimal w (IdStr "2") 0)); [lia|exact Hhas].
  - destruct (proj1 (proj2 (setQuantity_cases readDecimal w (IdStr "2") 7)))
      as (i & item & Hi & _ & _ & Hnew & _); [lia|exact Hhas|].
    exists i, item. split; [exact Hi|exact Hnew].
  - apply (proj2 (proj2 (setQuantity_cases readDecimal w (IdStr "3") 7))). exact Hno.
Defined.

(** [addToCart] tells the number 1 from the string "1", which
    [updateCartItem] and [removeCartItem] do not: added under both forms a
    product has two lines, and removing either form removes both. *)
Example number_and_string_ids :
  cart (performAll readDecimal [add (IdNum 1) 1; add (IdStr "1") 1] freshWorld)
  = [line (IdNum 1) 1; line (IdStr "1") 1] /\
  cart (performAll readDecimal
          [add (IdNum 1) 1; add (IdStr "1") 1; remove (IdStr "1")] freshWorld)
  = [].
Proof. split; reflexivity. Qed.

(** C1.  The product page passes the typed quantity to [addToCart] as it
    is: [add("5", 0)] on the empty cart stores a line of quantity 0, in
    memory and in [localStorage], so the quantity invariant is broken. *)
Theorem add_stores_quantity_zero :
  let w := performAll readDecimal [add (IdStr "5") 0] freshWorld in
  cart w = [line (IdStr "5") 0] /\
  ls_cart (localStorage w) = Some (Json [line (IdStr "5") 0]) /\
  ~ Forall (fun item => 1 <= quantity item) (cart w).
Proof.
  simpl. split_and!; [reflexivity..|].
  intros H. apply Forall_cons in H as [H _]. simpl in H. lia.
Qed.

(** ** The cart total *)

Section CartTotal.

Variable StringToNumber : string -> option Z.
Variable fetchAPI : string -> Response.
Variable sampleProducts : list Product.


Lemma resolve_primary item product :
  fetchAPI ("/products/products/" +:+ ToString (id item) +:+ "/")
  = Resolved (Some product) ->
  resolveProduct StringToNumber fetchAPI sampleProducts item = Some product.
Proof. intros H. unfold resolveProduct. by rewrite H. Qed.

Lemma resolve_fallback item :
  fetchAPI ("/products/products/" +:+ ToString (id item) +:+ "/") = Rejected ->
  resolveProduct StringToNumber fetchAPI sampleProducts item
  = snd <$> list_find
      (fun p => loose_eq StringToNumber (IdNum (p_id p)) (id item) = true)
      sampleProducts.
Proof. intros H. unfold resolveProduct. by rewrite H. Qed.

End CartTotal.


(** ** Checkout totals *)



(** ** Delivery estimate *)

(** C5.  The estimate is a function of the current day and the shipping
    method alone.  Its start is the next day, or the day after when the next
    day is a Sunday; its end is the start plus 2 days for "express" and plus
    5 days for any other method, moved one day on when that is a Sunday; and
    the end for "express" is never later than the end for another method. *)
Theorem delivery_estimate (today : Date) (method : string) :
  let start := if getDay (today + 1) =? 0 then today + 2 else today + 1 in
  let span := if bool_decide (method = "express") then 2 else 5 in
  getEstimatedDelivery today method
  = (start, if getDay (start + span) =? 0 then start + span + 1 else start + span) /\
  snd (getEstimatedDelivery today "express") <= snd (getEstimatedDelivery today method).
Proof.
  unfold getEstimatedDelivery, skipSunday, plusDays, getDay. simpl.
  split.
  - case_bool_decide; f_equal; sunday_cases.
  - case_bool_decide; [lia|]. sunday_cases.
Qed.

(** ** Recently viewed products *)

Lemma filter_keeps_all (k : Z) (l : list ViewedProduct) :
  k ∉ v_id <$> l -> filter (fun p => v_id p <> k) l = l.
Proof.
  induction l as [|y l IH]; [done|].
  rewrite fmap_cons, not_elem_of_cons. intros [Hy Hl].
  rewrite filter_cons_True by congruence. by rewrite IH.
Qed.

(** With distinct ids, removing the first entry of a given id removes every
    entry of that id. *)
Lemma delete_found_is_filter (k : Z) i x (l : list ViewedProduct) :
  NoDup (v_id <$> l) ->
  list_find (fun p => v_id p = k) l = Some (i, x) ->
  delete i l = filter (fun p => v_id p <> k) l.
Proof.
  revert i. induction l as [|y l IH]; intros i Hl Hfind; [done|].
  rewrite fmap_cons in Hl. apply NoDup_cons in Hl as [Hy Hl].
  simpl in Hfind. case_decide as Hk.
  - injection Hfind as <- <-. simpl.
    rewrite filter_cons_False by (intros Hne; by apply Hne).
    symmetry. apply filter_keeps_all. by rewrite <- Hk.
  - destruct (list_find _ l) as [[i' x']|] eqn:Hrest; [|done].
    injection Hfind as <- <-. simpl.
    rewrite filter_cons_True by done. f_equal. by apply IH.
Qed.

Lemma recordView_filter product (l : list ViewedProduct) :
  NoDup (v_id <$> l) ->
  recordView product l
  = take 10 (snapshot product :: filter (fun p => v_id p <> p_id product) l).
Proof.
  intros Hl. unfold recordView.
  destruct (list_find _ l) as [[i x]|] eqn:Hfind.
  - by rewrite (delete_found_is_filter (p_id product) i x).
  - rewrite filter_keeps_all; [done|].
    apply list_find_None in Hfind. rewrite Forall_forall in Hfind.
    intros (y & Hy & Hin)%list_elem_of_fmap. by apply (Hfind y Hin).
Qed.

Lemma recordView_ok product (l : list ViewedProduct) :
  NoDup (v_id <$> l) -> viewed_ok (recordView product l).
Proof.
  intros Hl. rewrite recordView_filter by done. split.
  - rewrite length_take. lia.
  - eapply sublist_NoDup; [|apply fmap_sublist, sublist_take].
    rewrite fmap_cons. apply NoDup_cons. split.
    + intros (y & Hy & Hin)%list_elem_of_fmap.
      apply list_elem_of_filter in Hin as [Hne _]. simpl in Hy. congruence.
    + eapply sublist_NoDup; [exact Hl|]. apply fmap_sublist, sublist_filter.
Qed.

(** Recording a product whose id is in the list keeps the length. *)
Lemma recordView_present product (l : list ViewedProduct) :
  viewed_ok l ->
  p_id product ∈ v_id <$> l ->
  recordView product l
  = snapshot product :: filter (fun p => v_id p <> p_id product) l /\
  length (recordView product l) = length l.
Proof.
  intros [Hlen Hl] (y & Hy & Hin)%list_elem_of_fmap.
  destruct (list_find_elem_of (fun p => v_id p = p_id product) l y Hin)
    as [[i x] Hfind]; [done|].
  assert (Hdel : length (delete i l) = (length l - 1)%nat).
  { apply length_delete. apply list_find_Some in Hfind as [Hi _]. eauto. }
  assert (Hpos : (0 < length l)%nat).
  { apply list_find_Some in Hfind as [Hi _]. apply lookup_lt_Some in Hi. lia. }
  rewrite recordView_filter by done.
  rewrite <- (delete_found_is_filter (p_id product) i x) by done.
  rewrite take_ge by (simpl; lia). split; [done|]. simpl. lia.
Qed.

(** What a call of [saveViewedProduct] leaves in the store when the stored
    text parses. *)
Lemma saveViewedProduct_parsed product (w : World) l :
  viewedText (localStorage w) = Json l ->
  viewedList (after (saveViewedProduct product) w) = recordView product l /\
  ls_viewedProducts (localStorage (after (saveViewedProduct product) w))
  = Some (Json (recordView product l)).
Proof.
  intros Htext. unfold after, saveViewedProduct, try_catch, viewedList. simpl.
  unfold mbind, Run_bind, completed, get, modify. simpl. rewrite Htext. simpl.
  done.
Qed.

Lemma saveAll_ok (products : list Product) (w : World) l :
  viewedText (localStorage w) = Json l ->
  NoDup (v_id <$> l) ->
  (length l <= 10)%nat ->
  exists l', viewedText (localStorage (saveAll products w)) = Json l' /\ viewed_ok l'.
Proof.
  revert w l. induction products as [|product products IH]; intros w l Htext Hl Hlen.
  - exists l. by split.
  - simpl. destruct (recordView_ok product l Hl) as [Hlen' Hnodup'].
    destruct (saveViewedProduct_parsed product w l Htext) as [_ Hstored].
    apply (IH _ (recordView product l)); [|done..].
    unfold viewedText. by rewrite Hstored.
Qed.

(** C7.  After any sequence of [record(product)] calls on a profile with
    nothing stored, the persisted list has at most 10 entries and no two of
    one id; recording a product whose id is in the list puts its fresh
    snapshot at index 0, removes the entry it had, and leaves the length of
    the list as it was. *)
Theorem viewed_list_bounded_and_distinct (products : list Product) (product : Product) :
  let w := saveAll products freshWorld in
  (length (viewedList w) <= 10)%nat /\
  NoDup (v_id <$> viewedList w) /\
  ls_viewedProducts (localStorage (after (saveViewedProduct product) w))
  = Some (Json (viewedList (after (saveViewedProduct product) w))) /\
  (p_id product ∈ v_id <$> viewedList w ->
   let w' := after (saveViewedProduct product) w in
   viewedList w' !! 0%nat = Some (snapshot product) /\
   viewedList w'
   = snapshot product :: filter (fun p => v_id p <> p_id product) (viewedList w) /\
   length (viewedList w') = length (viewedList w)).
Proof.
  intros w.
  destruct (saveAll_ok products freshWorld []) as (l & Htext & Hok);
    [done|apply NoDup_nil_2|simpl; lia|].
  fold w in Htext.
  assert (Hl : viewedList w = l) by (unfold viewedList; by rewrite Htext).
  destruct (saveViewedProduct_parsed product w l Htext) as [Hlist Hstored].
  cbv zeta. rewrite Hl, Hlist. destruct Hok as [Hlen Hnodup]. split_and!; try done.
  intros Hin. destruct (recordView_present product l) as [Heq Hsame]; [done..|].
  rewrite Hsame, Heq. done.
Qed.

Lemma viewed_list_bounded_and_distinct_witness :
  viewedList
    (after (saveViewedProduct (priced 1 120))
       (saveAll [priced 1 100; priced 2 50] freshWorld)) !! 0%nat
  = Some (snapshot (priced 1 120)) /\
  length
    (viewedList
       (after (saveViewedProduct (priced 1 120))
          (saveAll [priced 1 100; priced 2 50] freshWorld)))
  = length (viewedList (saveAll [priced 1 100; priced 2 50] freshWorld)).
Proof.
  destruct (viewed_list_bounded_and_distinct [priced 1 100; priced 2 50] (priced 1 120))
    as (_ & _ & _ & Hmove).
  destruct Hmove as (Hhead & _ & Hlen).
  - change (1 ∈ [2; 1]). apply list_elem_of_further, list_elem_of_here.
  - split; [exact Hhead|exact Hlen].
Defined.

(** ** Placing an order *)

(** Submitting the checkout form with an empty cart shows an error
    notification and changes neither the cart nor anything stored.
    Submitting it with a cart that has lines, while a shipping method and a
    payment method are checked, writes one order to [lastOrder] whose items
    are the lines of the cart at that moment, empties the cart in memory
    and in the store, and leaves for the confirmation page. *)
Theorem checkout_submission (random : Z) (today : Date) (page : CheckoutPage)
    (w : World) :
  (cart w = [] ->
   placeOrder random today page w
   = (Normal tt, showNotification "Giỏ hàng của bạn đang trống!" error w) /\
   cart (after (placeOrder random today page) w) = cart w /\
   localStorage (after (placeOrder random today page) w) = localStorage w) /\
  (cart w <> [] ->
   forall method payment,
     checked_shipping_method page = Some method ->
     checked_payment_method page = Some payment ->
     exists order,
       let w' := after (placeOrder random today page) w in
       fst (placeOrder random today page w) = Normal tt /\
       localStorage w'
       = setItem_cart [] (setItem_lastOrder order (localStorage w)) /\
       items order = cart w /\
       shipping_method order = method /\
       payment_method order = payment /\
       cart w' = [] /\
       effects w' = effects w ++ [Navigate "/order_confirmation.html"]).
Proof.
  split.
  - intros Hempty. unfold after, placeOrder, mbind, Run_bind, get. simpl.
    rewrite Hempty. done.
  - intros Hlines method payment Hmethod Hpayment.
    unfold after, placeOrder, mbind, Run_bind, get. simpl.
    destruct (cart w) as [|item rest] eqn:Hcart; [done|].
    rewrite Hmethod, Hpayment. simpl. eexists. split_and!; reflexivity.
Qed.

Lemma checkout_submission_witness :
  (exists order,
      ls_lastOrder
        (localStorage
           (after (placeOrder 23456 20000 (samplePage (Some "express") (Some "cod")))
              (worldWithCart [line (IdStr "1") 2; line (IdStr "2") 1])))
      = Some (Json order) /\
      items order = [line (IdStr "1") 2; line (IdStr "2") 1]) /\
  cart (after (placeOrder 23456 20000 (samplePage (Some "express") (Some "cod")))
          (worldWithCart [])) = [].
Proof.
  split.
  - destruct (proj2 (checkout_submission 23456 20000
                       (samplePage (Some "express") (Some "cod"))
                       (worldWithCart [line (IdStr "1") 2; line (IdStr "2") 1])))
      with (method := "express") (payment := "cod")
      as (order & _ & Hstore & Hitems & _); [discriminate|reflexivity|reflexivity|].
    exists order. split; [|exact Hitems]. cbv zeta in Hstore. by rewrite Hstore.
  - destruct (proj1 (checkout_submission 23456 20000
                       (samplePage (Some "express") (Some "cod")) (worldWithCart [])))
      as (_ & Hcart & _); [reflexivity|exact Hcart].
Defined.

(** C2.  A submission with lines in the cart is to write one order and to
    empty the cart.  The handler reads [.value] of the checked shipping
    button without the test for a checked button that [updateCheckoutTotals]
    makes: with lines in the cart and no shipping method checked it stops
    there with a [TypeError]; no order is written and the cart stays. *)
Lemma checkout_without_method_writes_nothing :
  let w := worldWithCart [line (IdStr "1") 2] in
  let submit := placeOrder 23456 20000 (samplePage None (Some "cod")) in
  cart w <> [] /\
  submit w = (Throw TypeError, w) /\
  ls_lastOrder (localStorage (after submit w)) = None /\
  cart (after submit w) = [line (IdStr "1") 2] /\
  ~ (exists order, ls_lastOrder (localStorage (after submit w)) = Some (Json order)).
Proof.
  simpl. split_and!; try done. by intros [order Horder].
Qed.

(** ** Stored texts that do not parse *)

Lemma loadCart_malformed (ls : LocalStorage) text :
  ls_cart ls = Some (Malformed text) -> startScript ls = Throw SyntaxError.
Proof. intros H. unfold startScript, loadCart. by rewrite H. Qed.

(** C6.  A [cart] text that does not parse is not read as an empty cart:
    the statement that initialises the cart throws [SyntaxError] at the top
    level of the script.  The readers of [viewedProducts] and [lastOrder]
    do catch the failure; they log it and leave the store as it is. *)
Theorem malformed_cart_text_throws :
  startScript (storedCart (Malformed "{oops")) = Throw SyntaxError /\
  startScript (storedCart (Json [line (IdStr "1") 2]))
  = Normal (mkWorld [line (IdStr "1") 2] (storedCart (Json [line (IdStr "1") 2])) []) /\
  startScript emptyStorage = Normal freshWorld /\
  (let ls := {| ls_cart := None; ls_viewedProducts := Some (Malformed "{oops");
                ls_lastOrder := None; ls_couponCode := None |} in
   saveViewedProduct (priced 1 100) (worldWithStore ls)
   = (Normal tt,
      emit (ConsoleError "Error saving viewed product:") (worldWithStore ls))) /\
  (let ls := {| ls_cart := None; ls_viewedProducts := None;
                ls_lastOrder := Some (Malformed "{oops"); ls_couponCode := None |} in
   renderOrderConfirmation (worldWithStore ls)
   = (Normal tt,
      emit (ConsoleError "Error rendering order confirmation:") (worldWithStore ls))).
Proof. split_and!; reflexivity. Qed.

(** * Further properties *)

(** ** Removing a product *)

Section Removal.

Variable StringToNumber : string -> option Z.

(** X4.  After [removeCartItem(p)] no line of the cart answers to [p]; the
    lines that do not answer to [p] are all kept, in their order; and a
    second removal of [p] leaves the cart as the first one left it. *)
Theorem remove_removes_every_line (p : Id) (w : World) :
  let w' := removeCartItem StringToNumber p w in
  ~ has_line StringToNumber p (cart w') /\
  cart w' `sublist_of` cart w /\
  (forall item, item ∈ cart w ->
                loose_eq StringToNumber (id item) p = false -> item ∈ cart w') /\
  cart (removeCartItem StringToNumber p w') = cart w' /\
  ls_cart (localStorage w') = Some (Json (cart w')).
Proof.
  simpl. split_and!.
  - intros (item & Hin & Heq)%Exists_exists.
    apply list_elem_of_filter in Hin as [Hne _]. congruence.
  - apply sublist_filter.
  - intros item Hin Hne. by apply list_elem_of_filter.
  - unfold remove_line. rewrite list_filter_filter.
    apply list_filter_iff. tauto.
  - done.
Qed.

End Removal.

(** ** Invariants from any starting cart *)

(** X1.  From a cart whose ids are distinct, every sequence of adds,
    quantity changes and removals leaves a cart whose ids are distinct,
    whatever the arguments. *)
Theorem ids_stay_distinct StringToNumber (ops : list Op) (w : World) :
  NoDup (id <$> cart w) ->
  NoDup (id <$> cart (performAll StringToNumber ops w)).
Proof.
  unfold performAll. revert w. induction ops as [|op ops IH]; intros w Hw; [done|].
  simpl. apply IH. by apply perform_ids_NoDup.
Qed.

Lemma ids_stay_distinct_witness :
  NoDup (id <$> cart (performAll readDecimal
                        [add (IdStr "1") 3; add (IdStr "3") 1; remove (IdStr "2")]
                        (worldWithCart [line (IdStr "1") 2; line (IdStr "2") 1]))).
Proof.
  apply ids_stay_distinct. simpl.
  apply NoDup_cons. split.
  - rewrite list_elem_of_singleton. discriminate.
  - apply NoDup_singleton.
Defined.

(** X2.  From a cart whose quantities are all at least 1, a sequence of
    operations in which every add is of at least one unit leaves a cart
    whose quantities are all at least 1: quantity changes and removals never
    store a quantity below 1. *)
Theorem quantities_stay_positive StringToNumber (ops : list Op) (w : World) :
  Forall adds_at_least_one ops ->
  Forall (fun item => 1 <= quantity item) (cart w) ->
  Forall (fun item => 1 <= quantity item) (cart (performAll StringToNumber ops w)).
Proof.
  unfold performAll. revert w.
  induction ops as [|op ops IH]; intros w Hops Hw; [done|].
  simpl. apply Forall_cons in Hops as [Hop Hops]. apply IH; [done|].
  by apply perform_quantities.
Qed.

Lemma quantities_stay_positive_witness :
  Forall (fun item => 1 <= quantity item)
    (cart (performAll readDecimal
             [add (IdStr "1") 2; setQuantity (IdStr "1") 0; setQuantity (IdStr "2") (-4)]
             (worldWithCart [line (IdStr "2") 1; line (IdStr "3") 6]))).
Proof.
  apply quantities_stay_positive.
  - repeat constructor. simpl. lia.
  - repeat constructor; simpl; lia.
Defined.

(** ** The badge after an add *)

Lemma sumZ_nonneg (c : list CartLine) :
  Forall (fun item => 0 <= quantity item) c -> 0 <= sumZ (quantity <$> c).
Proof.
  induction 1 as [|item c Hitem _ IH]; unfold sumZ in *; csimpl; lia.
Qed.

(** The badge is the sum of the quantities as long as that sum is exact. *)
Lemma cartCount_sum (c : list CartLine) :
  Forall (fun item => 0 <= quantity item) c ->
  sumZ (quantity <$> c) <= 2 ^ 53 ->
  cartCount c = sumZ (quantity <$> c).
Proof.
  intros Hc Hsum. unfold cartCount.
  assert (H : forall acc,
             0 <= acc -> acc + sumZ (quantity <$> c) <= 2 ^ 53 ->
             fold_left (fun total item => Number_add total (quantity item)) c acc
             = acc + sumZ (quantity <$> c)).
  { clear Hsum. induction Hc as [|item c Hitem Hc IH]; intros acc Hacc Hsum; csimpl.
    - unfold sumZ. simpl. lia.
    - pose proof (sumZ_nonneg c Hc) as Hrest.
      unfold sumZ in *. csimpl in *.
      rewrite Number_add_safe by (unfold safe; lia).
      rewrite IH by lia. lia. }
  rewrite H; lia.
Qed.

Lemma quantity_below_sum i item (c : list CartLine) :
  Forall (fun item => 0 <= quantity item) c ->
  c !! i = Some item ->
  quantity item <= sumZ (quantity <$> c).
Proof.
  intros Hc. revert i.
  induction Hc as [|x c Hx Hc IH]; intros [|i] Hi; try done.
  - injection Hi as ->. pose proof (sumZ_nonneg c Hc). unfold sumZ in *. csimpl. lia.
  - simpl in Hi. specialize (IH i Hi). unfold sumZ in *. csimpl. lia.
Qed.

Lemma sum_after_increase q i item (c : list CartLine) :
  c !! i = Some item ->
  safe (quantity item + q) ->
  sumZ (quantity <$> alter (increase q) i c) = sumZ (quantity <$> c) + q.
Proof.
  intros Hi Hq. revert i Hi. induction c as [|x c IH]; intros [|i] Hi; try done.
  - injection Hi as ->. unfold sumZ. csimpl. rewrite Number_add_safe by done. lia.
  - simpl in Hi. unfold sumZ in *. csimpl. rewrite (IH i Hi). lia.
Qed.

Lemma sum_after_add_line p q (c : list CartLine) :
  Forall (fun item => 0 <= quantity item) c ->
  0 <= q ->
  sumZ (quantity <$> c) + q <= 2 ^ 53 ->
  Forall (fun item => 0 <= quantity item) (add_line p q c) /\
  sumZ (quantity <$> add_line p q c) = sumZ (quantity <$> c) + q.
Proof.
  intros Hc Hq Hsum. unfold add_line.
  destruct (list_find _ c) as [[i item]|] eqn:Hfind.
  - apply list_find_Some in Hfind as [Hi _].
    pose proof (quantity_below_sum i item c Hc Hi) as Hbelow.
    assert (Hitem : 0 <= quantity item).
    { rewrite Forall_lookup in Hc. by apply (Hc i). }
    assert (Hsafe : safe (quantity item + q)) by (unfold safe; lia).
    split; [|by apply (sum_after_increase q i item)].
    apply Forall_alter; [done|]. intros x Hx _. simpl.
    assert (x = item) as -> by congruence.
    rewrite Number_add_safe by done. lia.
  - split.
    + apply Forall_app. split; [done|]. by apply Forall_singleton.
    + rewrite fmap_app. unfold sumZ. rewrite foldr_app. simpl.
      generalize (quantity <$> c). intros l.
      induction l as [|x l IH]; simpl; lia.
Qed.

(** X5.  On a cart of quantities of 0 and more, an add of [q] units, [q] being
    0 or more, that leaves the sum of the quantities at 2^53 or below
    raises the number shown on the cart badge by exactly [q], whether the
    product had a line or not, and shows the badge before the
    notification. *)
Theorem add_raises_badge (p : Id) (q : Z) (w : World) :
  Forall (fun item => 0 <= quantity item) (cart w) ->
  0 <= q ->
  sumZ (quantity <$> cart w) + q <= 2 ^ 53 ->
  cartCount (cart (addToCart p q w)) = cartCount (cart w) + q /\
  effects (addToCart p q w)
  = effects w ++ [CartCount (cartCount (cart w) + q);
                  Notification "Đã thêm sản phẩm vào giỏ hàng!" success].
Proof.
  intros Hc Hq Hsum.
  destruct (sum_after_add_line p q (cart w) Hc Hq Hsum) as [Hc' Hsum'].
  assert (Hcount : cartCount (add_line p q (cart w)) = cartCount (cart w) + q).
  { rewrite !cartCount_sum by (done || lia). done. }
  unfold addToCart, showNotification, updateCartCount, saveCart, setStorage,
    setCart, emit. simpl.
  rewrite Hcount. split; [done|]. by rewrite <- app_assoc.
Qed.

Lemma add_raises_badge_witness :
  cartCount (cart (addToCart (IdStr "2") 3
                     (worldWithCart [line (IdStr "1") 2; line (IdStr "2") 1])))
  = 6.
Proof.
  assert (Hc : Forall (fun item => 0 <= quantity item)
                 [line (IdStr "1") 2; line (IdStr "2") 1]).
  { repeat constructor; simpl; lia. }
  assert (Hq : 0 <= 3) by lia.
  assert (Hsum : sumZ (quantity <$> [line (IdStr "1") 2; line (IdStr "2") 1]) + 3
                 <= 2 ^ 53).
  { vm_compute. discriminate. }
  exact (proj1 (add_raises_badge (IdStr "2") 3
                  (worldWithCart [line (IdStr "1") 2; line (IdStr "2") 1])
                  Hc Hq Hsum)).
Defined.

(** Beyond 2^53 the badge follows the rounding of its sums: with a line of
    2^53 units before it, a second line makes no difference to the badge at
    one unit and a difference of two at two units. *)
Example badge_beyond_the_exact_sums :
  cartCount [line (IdStr "a") 9007199254740992; line (IdStr "b") 1]
  = 9007199254740992 /\
  cartCount (cart (addToCart (IdStr "b") 1
                     (worldWithCart [line (IdStr "a") 9007199254740992;
                                     line (IdStr "b") 1])))
  = 9007199254740994.
Proof. split; reflexivity. Qed.

(** ** After an order has been placed *)

(** X7.  Once an order has been placed, the confirmation page shows exactly
    the order that was written, a reload finds an empty cart, and a second
    submission of the form is refused and leaves the stored order as it is. *)
Theorem placed_order_is_shown_once (random random' : Z) (today today' : Date)
    (page page' : CheckoutPage) (w : World) (method payment : string) :
  cart w <> [] ->
  checked_shipping_method page = Some method ->
  checked_payment_method page = Some payment ->
  let w1 := after (placeOrder random today page) w in
  exists order,
    items order = cart w /\
    renderOrderConfirmation w1 = (Normal tt, emit (OrderShown order) w1) /\
    loadCart (localStorage w1) = Normal [] /\
    localStorage (after (placeOrder random' today' page') w1) = localStorage w1 /\
    ls_lastOrder (localStorage (after (placeOrder random' today' page') w1))
    = Some (Json order).
Proof.
  intros Hlines Hmethod Hpayment.
  unfold after, placeOrder, mbind, Run_bind, get. simpl.
  destruct (cart w) as [|item rest] eqn:Hcart; [done|].
  rewrite Hmethod, Hpayment. simpl. eexists.
  split; [|split_and!; reflexivity]. reflexivity.
Qed.

Lemma placed_order_is_shown_once_witness :
  exists order,
    items order = [line (IdStr "1") 2] /\
    renderOrderConfirmation
      (after (placeOrder 23456 20000 (samplePage (Some "standard") (Some "momo")))
         (worldWithCart [line (IdStr "1") 2]))
    = (Normal tt,
       emit (OrderShown order)
         (after (placeOrder 23456 20000 (samplePage (Some "standard") (Some "momo")))
            (worldWithCart [line (IdStr "1") 2]))).
Proof.
  destruct (placed_order_is_shown_once 23456 1 20000 20001
              (samplePage (Some "standard") (Some "momo"))
              (samplePage None None)
              (worldWithCart [line (IdStr "1") 2]) "standard" "momo")
    as (order & Hitems & Hshown & _); [discriminate|reflexivity|reflexivity|].
  exists order. split; [exact Hitems|exact Hshown].
Defined.

(** ** More on the delivery estimate *)

(** X8.  Neither end of the estimate is a Sunday; the estimate starts one or
    two days after the current day and spans at least 2 and at most 6 days. *)
Theorem delivery_never_on_sunday (today : Date) (method : string) :
  let estimate := getEstimatedDelivery today method in
  getDay (fst estimate) <> 0 /\
  getDay (snd estimate) <> 0 /\
  today + 1 <= fst estimate <= today + 2 /\
  fst estimate + 2 <= snd estimate <= fst estimate + 6.
Proof.
  unfold getEstimatedDelivery, skipSunday, plusDays, getDay. simpl.
  case_bool_decide; split_and!; sunday_cases.
Qed.

(** X9.  An order placed on a later day never gets an earlier estimate:
    both ends of the estimate are monotone in the current day. *)
Theorem delivery_is_monotone (today later : Date) (method : string) :
  today <= later ->
  fst (getEstimatedDelivery today method) <= fst (getEstimatedDelivery later method) /\
  snd (getEstimatedDelivery today method) <= snd (getEstimatedDelivery later method).
Proof.
  intros Hle.
  destruct (decide (today = later)) as [->|Hne]; [lia|].
  unfold getEstimatedDelivery, skipSunday, plusDays, getDay. simpl.
  case_bool_decide; split; sunday_cases.
Qed.

Lemma delivery_is_monotone_witness :
  snd (getEstimatedDelivery 20000 "express") <= snd (getEstimatedDelivery 20001 "express").
Proof.
  assert (H : 20000 <= 20001) by lia.
  exact (proj2 (delivery_is_monotone 20000 20001 "express" H)).
Defined.

(** ** Amounts below zero *)

Lemma strip_minus (text : string) :
  strip_non_digits ("-" +:+ text) = strip_non_digits text.
Proof. reflexivity. Qed.

(** X10.  Read back from its text, an amount loses its sign: removing
    everything but the digits from [formatCurrency(n)] and parsing the rest
    gives the absolute value of [n], so the handler of a shipping change
    recomputes the totals of a page that displays a negative subtotal from
    the opposite amount. *)
Theorem formatCurrency_reads_back_unsigned (n : Z) :
  parseFloat (strip_non_digits (formatCurrency n)) = Some (Z.abs n) /\
  forall page : CheckoutPage,
    checkout_subtotal page = formatCurrency n ->
    onShippingMethodChange page = updateCheckoutTotals (Z.abs n) page.
Proof.
  assert (H : parseFloat (strip_non_digits (formatCurrency n)) = Some (Z.abs n)).
  { destruct (Z.ltb_spec n 0) as [Hneg|Hpos].
    - unfold formatCurrency, toLocaleString_viVN.
      rewrite (proj2 (Z.ltb_lt n 0)) by done.
      change (("-" +:+ group (decimal (Z.to_N (- n)))) +:+ "₫")
        with ("-" +:+ (group (decimal (Z.to_N (- n))) +:+ "₫")).
      rewrite strip_minus.
      pose proof (format_roundtrip (- n)) as Hback.
      unfold formatCurrency, toLocaleString_viVN in Hback.
      rewrite (proj2 (Z.ltb_ge (- n) 0)) in Hback by lia.
      rewrite Hback by lia. f_equal. lia.
    - rewrite format_roundtrip by done. f_equal. lia. }
  split; [exact H|].
  intros page Htext. unfold onShippingMethodChange. by rewrite Htext, H.
Qed.

(** ** The recently viewed list as a whole *)

Lemma take_filter_one_less (k : Z) (n : nat) (l : list ViewedProduct) :
  NoDup (v_id <$> l) ->
  take n (filter (fun p => v_id p <> k) (take (S n) l))
  = take n (filter (fun p => v_id p <> k) l).
Proof.
  revert n. induction l as [|y l IH]; intros n Hl; [done|].
  rewrite fmap_cons in Hl. apply NoDup_cons in Hl as [Hy Hl].
  rewrite firstn_cons. destruct (decide (v_id y = k)) as [Hk|Hk].
  - rewrite !filter_cons_False by (intros Hne; by apply Hne).
    rewrite !filter_keeps_all.
    + by rewrite take_take, Nat.min_id.
    + by rewrite <- Hk.
    + rewrite <- Hk. intros Hin. apply Hy.
      apply list_elem_of_fmap in Hin as (z & -> & Hz).
      apply list_elem_of_fmap_2. eapply elem_of_sublist; [exact Hz|apply sublist_take].
  - rewrite !filter_cons_True by done. destruct n as [|n]; [done|].
    rewrite !firstn_cons. f_equal. by apply IH.
Qed.

Lemma distinct_by_id_NoDup (l : list ViewedProduct) :
  NoDup (v_id <$> distinct_by_id l).
Proof.
  induction l as [|x l IH]; [apply NoDup_nil_2|].
  simpl distinct_by_id. rewrite fmap_cons. apply NoDup_cons. split.
  - intros (y & Hy & Hin)%list_elem_of_fmap.
    apply list_elem_of_filter in Hin as [Hne _]. congruence.
  - eapply sublist_NoDup; [exact IH|]. apply fmap_sublist, sublist_filter.
Qed.

Lemma saveAll_snoc (products : list Product) product (w : World) :
  saveAll (products ++ [product]) w
  = after (saveViewedProduct product) (saveAll products w).
Proof. unfold saveAll. by rewrite fold_left_app. Qed.

Lemma saveAll_parsed (products : list Product) :
  viewedText (localStorage (saveAll products freshWorld))
  = Json (take 10 (distinct_by_id (snapshot <$> reverse products))).
Proof.
  induction products as [|product products IH] using rev_ind; [done|].
  rewrite saveAll_snoc.
  destruct (saveViewedProduct_parsed product _ _ IH) as [_ Hstored].
  unfold viewedText at 1. rewrite Hstored.
  rewrite reverse_snoc, fmap_cons. simpl distinct_by_id.
  assert (Hdistinct : NoDup (v_id <$> distinct_by_id (snapshot <$> reverse products)))
    by apply distinct_by_id_NoDup.
  rewrite recordView_filter.
  - change 10%nat with (S 9). rewrite !firstn_cons. do 2 f_equal.
    by apply take_filter_one_less.
  - eapply sublist_NoDup; [exact Hdistinct|]. apply fmap_sublist, sublist_take.
Qed.

(** X11.  After any sequence of product views on a profile with nothing
    stored, the stored list is exactly the snapshots of the products viewed,
    the latest view first, each product once (at its latest view), cut
    after the first 10. *)
Theorem viewed_list_is_latest_distinct_ten (products : list Product) :
  viewedList (saveAll products freshWorld)
  = take 10 (distinct_by_id (snapshot <$> reverse products)).
Proof. unfold viewedList. by rewrite saveAll_parsed. Qed.

(** X12.  Viewing a product that is not in the stored list puts its snapshot
    first and keeps the nine latest entries after it; when the list was
    full its oldest entry is dropped and the list stays at 10 entries. *)
Theorem new_view_drops_the_oldest (products : list Product) (product : Product) :
  let w := saveAll products freshWorld in
  let w' := after (saveViewedProduct product) w in
  p_id product ∉ v_id <$> viewedList w ->
  viewedList w' = snapshot product :: take 9 (viewedList w) /\
  (length (viewedList w) = 10%nat ->
   length (viewedList w') = 10%nat /\
   forall oldest, last (viewedList w) = Some oldest -> oldest ∉ viewedList w').
Proof.
  intros w w' Hnew.
  assert (Htext : viewedText (localStorage w) = Json (viewedList w)).
  { unfold w, viewedList. by rewrite saveAll_parsed. }
  assert (Hdistinct : NoDup (v_id <$> viewedList w)).
  { unfold w, viewedList. rewrite saveAll_parsed.
    eapply sublist_NoDup; [apply distinct_by_id_NoDup|].
    apply fmap_sublist, sublist_take. }
  assert (Hlist : viewedList w' = snapshot product :: take 9 (viewedList w)).
  { unfold w'. destruct (saveViewedProduct_parsed product w _ Htext) as [-> _].
    rewrite recordView_filter by done. by rewrite filter_keeps_all. }
  split; [exact Hlist|]. intros Hfull. rewrite Hlist. split.
  - simpl. rewrite length_take. lia.
  - intros oldest Hlast. rewrite last_lookup, Hfull in Hlast. simpl in Hlast.
    rewrite not_elem_of_cons. split.
    + intros ->. apply Hnew. apply list_elem_of_fmap.
      exists (snapshot product). split; [done|].
      by apply list_elem_of_lookup_2 in Hlast.
    + intros (i & Hi & Hlt)%elem_of_take.
      apply NoDup_fmap_1 in Hdistinct.
      pose proof (NoDup_lookup _ _ _ _ Hdistinct Hi Hlast). lia.
Qed.

Lemma new_view_drops_the_oldest_witness :
  viewedList
    (after (saveViewedProduct (priced 3 70)) (saveAll [priced 1 100; priced 2 50] freshWorld))
  = snapshot (priced 3 70)
      :: take 9 (viewedList (saveAll [priced 1 100; priced 2 50] freshWorld)).
Proof.
  refine (proj1 (new_view_drops_the_oldest [priced 1 100; priced 2 50] (priced 3 70) _)).
  change (3 ∉ [2; 1]). rewrite !not_elem_of_cons. split_and!; [lia|lia|].
  apply not_elem_of_nil.
Defined.

(** X13.  A stored list that does not parse stays as it is: every view is
    caught and logged, nothing is written, and the list is never repaired. *)
Theorem malformed_viewed_list_is_never_repaired (text : string)
    (products : list Product) (w : World) :
  text <> EmptyString ->
  ls_viewedProducts (localStorage w) = Some (Malformed text) ->
  localStorage (saveAll products w) = localStorage w /\
  cart (saveAll products w) = cart w /\
  effects (saveAll products w)
  = effects w ++ replicate (length products) (ConsoleError "Error saving viewed product:").
Proof.
  intros Htext. revert w. induction products as [|product products IH]; intros w Hw.
  - simpl. by rewrite app_nil_r.
  - assert (Hstep : after (saveViewedProduct product) w
                    = emit (ConsoleError "Error saving viewed product:") w).
    { unfold after, saveViewedProduct, try_catch, mbind, Run_bind, get, completed,
        viewedText. simpl. rewrite Hw. by destruct text. }
    change (saveAll (product :: products) w)
      with (saveAll products (after (saveViewedProduct product) w)).
    rewrite Hstep. destruct (IH (emit (ConsoleError "Error saving viewed product:") w))
      as (Hls & Hcart & Heffects); [done|].
    rewrite Hls, Hcart, Heffects. simpl. by rewrite <- app_assoc.
Qed.

Lemma malformed_viewed_list_is_never_repaired_witness :
  localStorage
    (saveAll [priced 1 100; priced 2 50]
       (worldWithStore
          {| ls_cart := None; ls_viewedProducts := Some (Malformed "{oops");
             ls_lastOrder := None; ls_couponCode := None |}))
  = {| ls_cart := None; ls_viewedProducts := Some (Malformed "{oops");
       ls_lastOrder := None; ls_couponCode := None |}.
Proof.
  refine (proj1 (malformed_viewed_list_is_never_repaired "{oops"
                   [priced 1 100; priced 2 50] _ _ _)).
  - discriminate.
  - reflexivity.
Defined.

(** ** The quantity controls of the cart page *)

Section QuantityControls.

Variable StringToNumber : string -> option Z.

Lemma updateCartItem_positive_keeps_lines p q (w : World) :
  0 < q ->
  id <$> cart (updateCartItem StringToNumber p q w) = id <$> cart w /\
  forall i item,
    cart (updateCartItem StringToNumber p q w) !! i = Some item ->
    cart w !! i = Some item \/ quantity item = q.
Proof.
  intros Hq. unfold updateCartItem.
  destruct (list_find _ (cart w)) as [[index found]|]; [|by split; auto].
  rewrite (proj2 (Z.leb_gt q 0)) by done. simpl. split.
  - by apply ids_alter.
  - intros i item Hi. destruct (decide (i = index)) as [->|Hne].
    + rewrite list_lookup_alter_eq in Hi.
      destruct (cart w !! index); simplify_eq/=. by right.
    + rewrite list_lookup_alter_ne in Hi by done. by left.
Qed.

(** X14.  The decrease button and the quantity field of the cart page never
    remove a line and never store a quantity below 1: after either, the
    cart has the same ids in the same order, and every line is as it was or
    has a quantity of at least 1. *)
Theorem quantity_controls_keep_lines (control : Control) (w : World) :
  let w' := use StringToNumber w control in
  id <$> cart w' = id <$> cart w /\
  forall i item,
    cart w' !! i = Some item -> cart w !! i = Some item \/ 1 <= quantity item.
Proof.
  destruct control as [p [value|]|p typed]; simpl.
  - destruct (Z.ltb_spec 0 (value - 1)) as [Hpos|Hnot]; [|by split; auto].
    destruct (updateCartItem_positive_keeps_lines p (value - 1) w Hpos) as [Hids Hlines].
    split; [done|]. intros i item Hi. destruct (Hlines i item Hi); [by left|right; lia].
  - by split; auto.
  - unfold onQuantityChange.
    set (q := match typed with
              | Some value => if value <? 1 then 1 else value
              | None => 1
              end).
    assert (Hq : 1 <= q).
    { unfold q. destruct typed as [value|]; [|lia].
      destruct (Z.ltb_spec value 1); lia. }
    destruct (updateCartItem_positive_keeps_lines p q w) as [Hids Hlines]; [lia|].
    split; [done|]. intros i item Hi. destruct (Hlines i item Hi); [by left|right; lia].
Qed.

End QuantityControls.

(** ** The cards of the product page *)

Section ProductCards.

Variable StringToNumber : string -> option Z.
Variable fetchAPI : string -> Response.
Variable sampleProducts : list Product.

(** X15.  Opening the page of a product that is found, on a profile whose
    viewed list was built by earlier views: the product becomes the first
    entry of the stored list, and the cards drawn are the first 4 entries of
    the stored list that do not answer to the id of the page, in the order
    of the list; so there are at most 4 cards and none for that id. *)
Theorem product_page_cards (products : list Product) (productId : Id)
    (product : Product) :
  findProduct StringToNumber fetchAPI sampleProducts productId = Some product ->
  let w := saveAll products freshWorld in
  let run := loadProductData StringToNumber fetchAPI sampleProducts productId w in
  exists cards,
    fst run = Normal (Some cards) /\
    viewedList (snd run) !! 0%nat = Some (snapshot product) /\
    cards
    = take 4 (filter (fun p => loose_eq StringToNumber (IdNum (v_id p)) productId = false)
                (viewedList (snd run))) /\
    (length cards <= 4)%nat /\
    Forall (fun p => loose_eq StringToNumber (IdNum (v_id p)) productId = false) cards /\
    cards `sublist_of` viewedList (snd run).
Proof.
  intros Hfound w run.
  assert (Htext : viewedText (localStorage w) = Json (viewedList w)).
  { unfold w, viewedList. by rewrite saveAll_parsed. }
  destruct (saveViewedProduct_parsed product w _ Htext) as [Hlist Hstored].
  assert (Hsaved : saveViewedProduct product w
                   = (Normal tt, after (saveViewedProduct product) w)).
  { unfold after, saveViewedProduct, try_catch, mbind, Run_bind, get, completed, modify.
    simpl. by rewrite Htext. }
  assert (Htext' : viewedText (localStorage (after (saveViewedProduct product) w))
                   = Json (recordView product (viewedList w))).
  { unfold viewedText. by rewrite Hstored. }
  set (cards := take 4 (filter (fun p => loose_eq StringToNumber (IdNum (v_id p)) productId = false)
                          (recordView product (viewedList w)))).
  assert (Hrun : run = (Normal (Some cards), after (saveViewedProduct product) w)).
  { unfold run, loadProductData. rewrite Hfound.
    unfold mbind at 1. unfold Run_bind at 1. rewrite Hsaved.
    unfold showRecentlyViewedProducts, try_catch, mbind, Run_bind, get, completed, mret,
      Run_ret. simpl. by rewrite Htext'. }
  exists cards. rewrite Hrun. simpl. rewrite Hlist. split_and!; try done.
  - unfold cards. rewrite length_take. lia.
  - apply Forall_forall. intros card Hin.
    apply elem_of_take in Hin as (i & Hin%list_elem_of_lookup_2 & _).
    by apply list_elem_of_filter in Hin as [Hne _].
  - unfold cards.
    transitivity (filter (fun p => loose_eq StringToNumber (IdNum (v_id p)) productId = false)
                    (recordView product (viewedList w)));
      [apply sublist_take|apply sublist_filter].
Qed.

End ProductCards.

Lemma product_page_cards_witness :
  exists cards,
    fst (loadProductData readDecimal onlyProductOne [priced 2 50000] (IdStr "2")
           (saveAll [priced 1 100000; priced 2 50000] freshWorld))
    = Normal (Some cards) /\
    (length cards <= 4)%nat.
Proof.
  destruct (product_page_cards readDecimal onlyProductOne [priced 2 50000]
              [priced 1 100000; priced 2 50000] (IdStr "2") (priced 2 50000))
    as (cards & Hrun & _ & _ & Hlen & _); [reflexivity|].
  exists cards. split; [exact Hrun|exact Hlen].
Defined.

(** ** Sorting the product list *)

Section Sorting.

Context {A : Type}.
Variable compare : A -> A -> Z.

Lemma insert_by_Permutation (x : A) (l : list A) : insert_by compare x l ≡ₚ x :: l.
Proof.
  induction l as [|y l IH]; simpl; [done|].
  destruct (compare x y <=? 0); [done|]. rewrite IH. apply Permutation_swap.
Qed.

Lemma Array_sort_Permutation (l : list A) : Array_sort compare l ≡ₚ l.
Proof.
  induction l as [|x l IH]; simpl; [done|].
  fold (Array_sort compare l). by rewrite insert_by_Permutation, IH.
Qed.

(** The comparator orders any two elements, and does so transitively. *)
Hypothesis compare_total : forall a b, compare a b <= 0 \/ compare b a <= 0.
Hypothesis compare_trans :
  forall a b c, compare a b <= 0 -> compare b c <= 0 -> compare a c <= 0.

Lemma insert_by_sorted (x : A) (l : list A) :
  StronglySorted (fun a b => compare a b <= 0) l ->
  StronglySorted (fun a b => compare a b <= 0) (insert_by compare x l).
Proof.
  induction l as [|y l IH]; intros Hl; simpl.
  - repeat constructor.
  - apply StronglySorted_inv in Hl as [Hl Hy].
    destruct (Z.leb_spec (compare x y) 0) as [Hxy|Hxy].
    + constructor; [by constructor|]. constructor; [done|].
      eapply Forall_impl; [exact Hy|]. intros z Hz. by eapply compare_trans.
    + constructor; [by apply IH|].
      rewrite insert_by_Permutation. constructor; [|done].
      destruct (compare_total x y); [lia|done].
Qed.

Lemma Array_sort_sorted (l : list A) :
  StronglySorted (fun a b => compare a b <= 0) (Array_sort compare l).
Proof.
  induction l as [|x l IH]; simpl; [constructor|]. by apply insert_by_sorted.
Qed.

(** Elements the comparator does not tell apart keep their order. *)
Lemma insert_by_filter (P : A -> Prop) `{!forall a, Decision (P a)} (x : A) (l : list A) :
  (forall a b, P a -> P b -> compare a b <= 0) ->
  filter P (insert_by compare x l) = filter P (x :: l).
Proof.
  intros HP. induction l as [|y l IH]; simpl; [done|].
  destruct (Z.leb_spec (compare x y) 0) as [Hxy|Hxy]; [done|].
  rewrite filter_cons, IH, !filter_cons.
  destruct (decide (P y)) as [Hy|Hy]; [|done].
  destruct (decide (P x)) as [Hx|Hx]; [|done].
  specialize (HP x y Hx Hy). lia.
Qed.

Lemma Array_sort_filter (P : A -> Prop) `{!forall a, Decision (P a)} (l : list A) :
  (forall a b, P a -> P b -> compare a b <= 0) ->
  filter P (Array_sort compare l) = filter P l.
Proof.
  intros HP. induction l as [|x l IH]; simpl; [done|].
  fold (Array_sort compare l). rewrite insert_by_filter by done.
  by rewrite !filter_cons, IH.
Qed.

End Sorting.

Lemma StronglySorted_weaken {A : Type} (R R' : A -> A -> Prop) (l : list A) :
  (forall a b, R a b -> R' a b) -> StronglySorted R l -> StronglySorted R' l.
Proof.
  intros HR. induction 1 as [|x l Hl IH Hx]; constructor; [done|].
  eapply Forall_impl; [exact Hx|]. intros y. apply HR.
Qed.

(** ** Filtering and sorting the catalog *)

Section CatalogFilter.

Variable sampleProducts : list Product.
Variable categories : list Category.

Lemma sorted_is_permutation (filterState : FilterState) :
  filterSampleProducts sampleProducts categories filterState ≡ₚ unsorted sampleProducts categories filterState.
Proof.
  unfold unsorted, filterSampleProducts. simpl.
  repeat case_bool_decide; try done; apply Array_sort_Permutation.
Qed.

Lemma filter_sublist_of (P : Product -> Prop) `{!forall p, Decision (P p)}
    (l k : list Product) :
  l `sublist_of` k -> filter P l `sublist_of` k.
Proof. intros Hl. etrans; [apply sublist_filter|exact Hl]. Qed.

Lemma unsorted_sublist (filterState : FilterState) :
  unsorted sampleProducts categories filterState `sublist_of` sampleProducts.
Proof.
  unfold unsorted, filterSampleProducts. simpl.
  destruct (f_category filterState) as [slug|];
    [case_bool_decide;
     [|destruct (list_find (fun c => c_slug c = slug) categories) as [[i category]|]]|];
    (destruct (f_rating filterState) as [r|]; [destruct (r =? 0)|]);
    destruct (f_on_sale filterState);
    repeat apply filter_sublist_of; try done.
Qed.

Lemma unsorted_passes (filterState : FilterState) :
  Forall (passes filterState) (unsorted sampleProducts categories filterState).
Proof.
  unfold unsorted, filterSampleProducts. simpl. apply Forall_forall. intros p Hp.
  destruct (f_on_sale filterState) eqn:Hsale.
  - apply list_elem_of_filter in Hp as [Hdisc Hp].
    apply list_elem_of_filter in Hp as [Hprice Hp].
    split_and!; [lia|lia|done|]. intros r Hr Hr0. rewrite Hr in Hp.
    rewrite (proj2 (Z.eqb_neq r 0)) in Hp by done.
    by apply list_elem_of_filter in Hp as [Hrated _].
  - apply list_elem_of_filter in Hp as [Hprice Hp].
    split_and!; [lia|lia|intros; congruence|]. intros r Hr Hr0. rewrite Hr in Hp.
    rewrite (proj2 (Z.eqb_neq r 0)) in Hp by done.
    by apply list_elem_of_filter in Hp as [Hrated _].
Qed.

(** X16.  Whatever the filter state, the products [filterSampleProducts]
    returns are products of the catalog, none more often than the catalog
    has it, and each within the price bounds, discounted when only
    discounted products are asked for, and rated as asked. *)
Theorem filtered_products_pass_the_filters (filterState : FilterState) :
  filterSampleProducts sampleProducts categories filterState ⊆+ sampleProducts /\
  Forall (passes filterState)
    (filterSampleProducts sampleProducts categories filterState).
Proof.
  split.
  - rewrite sorted_is_permutation. apply sublist_submseteq, unsorted_sublist.
  - rewrite sorted_is_permutation. apply unsorted_passes.
Qed.

(** X17.  Sorting only reorders: the sorted list is a permutation of the
    filtered one.  By ascending price the prices never decrease along the
    list, by descending price they never increase, by "newest" the ids never
    increase; and products of one price keep the order of the catalog. *)
Theorem sorted_products_are_in_order (filterState : FilterState) :
  let shown := filterSampleProducts sampleProducts categories filterState in
  shown ≡ₚ unsorted sampleProducts categories filterState /\
  (f_sort filterState = "price_asc" ->
   StronglySorted (fun a b => p_price a <= p_price b) shown /\
   forall price, filter (fun p => p_price p = price) shown
                 = filter (fun p => p_price p = price) (unsorted sampleProducts categories filterState)) /\
  (f_sort filterState = "price_desc" ->
   StronglySorted (fun a b => p_price b <= p_price a) shown /\
   forall price, filter (fun p => p_price p = price) shown
                 = filter (fun p => p_price p = price) (unsorted sampleProducts categories filterState)) /\
  (f_sort filterState = "newest" ->
   StronglySorted (fun a b => p_id b <= p_id a) shown).
Proof.
  split; [apply sorted_is_permutation|].
  unfold unsorted, filterSampleProducts. simpl.
  set (filtered := if f_on_sale filterState then _ else _).
  split_and!; intros Hsort; rewrite Hsort; simpl.
  - split.
    + eapply StronglySorted_weaken;
        [|apply (Array_sort_sorted byPriceAscending); unfold byPriceAscending; lia].
      unfold byPriceAscending. simpl. intros a b. lia.
    + intros price. apply Array_sort_filter. unfold byPriceAscending. lia.
  - split.
    + eapply StronglySorted_weaken;
        [|apply (Array_sort_sorted byPriceDescending); unfold byPriceDescending; lia].
      unfold byPriceDescending. simpl. intros a b. lia.
    + intros price. apply Array_sort_filter. unfold byPriceDescending. lia.
  - eapply StronglySorted_weaken;
      [|apply (Array_sort_sorted byNewest); unfold byNewest; lia].
    unfold byNewest. simpl. intros a b. lia.
Qed.

(** X18.  A category that is not among the categories loaded filters
    nothing: the products of every category are returned, as without a
    category. *)
Theorem unknown_category_shows_everything (filterState : FilterState) (slug : string) :
  f_category filterState = Some slug ->
  Forall (fun c => c_slug c <> slug) categories ->
  filterSampleProducts sampleProducts categories filterState
  = filterSampleProducts sampleProducts categories
      {| f_category := None; f_min := f_min filterState; f_max := f_max filterState;
         f_rating := f_rating filterState; f_in_stock := f_in_stock filterState;
         f_on_sale := f_on_sale filterState; f_sort := f_sort filterState;
         f_search := f_search filterState |}.
Proof.
  intros Hslug Hunknown. unfold filterSampleProducts. simpl. rewrite Hslug.
  destruct (bool_decide (slug = EmptyString)); [done|].
  by rewrite (proj2 (list_find_None (fun c => c_slug c = slug) categories)).
Qed.

End CatalogFilter.

Lemma sorted_products_are_in_order_witness :
  StronglySorted (fun a b => p_price a <= p_price b)
    (filterSampleProducts [priced 1 300; priced 2 100; priced 3 200] []
       {| f_category := None; f_min := 0; f_max := 50000000; f_rating := None;
          f_in_stock := false; f_on_sale := false; f_sort := "price_asc";
          f_search := EmptyString |}).
Proof.
  refine (proj1 (proj1 (proj2 (sorted_products_are_in_order
                                 [priced 1 300; priced 2 100; priced 3 200] [] _)) _)).
  reflexivity.
Defined.

Lemma unknown_category_shows_everything_witness :
  filterSampleProducts [priced 1 300; priced 2 100] []
    {| f_category := Some "phong-tam"; f_min := 0; f_max := 50000000; f_rating := None;
       f_in_stock := false; f_on_sale := false; f_sort := "featured";
       f_search := EmptyString |}
  = [priced 1 300; priced 2 100].
Proof.
  rewrite (unknown_category_shows_everything [priced 1 300; priced 2 100] [] _ "phong-tam");
    [reflexivity|reflexivity|constructor].
Defined.

(** ** Pages of the product list *)

Lemma page_as_take_drop (page perPage : Z) (l : list Product) :
  1 <= page -> 0 < perPage ->
  productsToShow page perPage l
  = take (Z.to_nat perPage) (drop (Z.to_nat ((page - 1) * perPage)) l).
Proof.
  intros Hpage Hper. unfold productsToShow, Array_slice.
  set (n := Z.of_nat (length l)). set (start := (page - 1) * perPage).
  assert (Hstart : 0 <= start) by (unfold start; nia).
  rewrite (proj2 (Z.ltb_ge start 0)) by done.
  rewrite (proj2 (Z.ltb_ge (Z.min (start + perPage) n) 0)) by lia.
  destruct (Z.le_gt_cases n start) as [Hout|Hin].
  - rewrite (drop_ge l (Z.to_nat start)) by lia.
    rewrite (drop_ge l (Z.to_nat (Z.min start n))) by lia. by rewrite !take_nil.
  - replace (Z.min start n) with start by lia.
    destruct (Z.le_gt_cases (start + perPage) n) as [Hfull|Hlast].
    + f_equal. lia.
    + rewrite !take_ge; [done|rewrite length_drop; lia..].
Qed.

Lemma pages_up_to (perPage : Z) (l : list Product) (j : nat) :
  0 < perPage ->
  mjoin ((fun page => productsToShow page perPage l) <$> seqZ 1 (Z.of_nat j))
  = take (j * Z.to_nat perPage) l.
Proof.
  intros Hper. induction j as [|j IH]; [done|].
  rewrite seqZ_S, fmap_app, join_app, IH. simpl. rewrite app_nil_r.
  rewrite page_as_take_drop by lia.
  replace (Z.to_nat ((1 + Z.of_nat j - 1) * perPage)) with (j * Z.to_nat perPage)%nat
    by nia.
  rewrite take_take_drop. f_equal. lia.
Qed.

Lemma totalPages_bounds (n perPage : Z) :
  0 <= n -> 0 < perPage ->
  0 <= totalPages n perPage /\
  n <= totalPages n perPage * perPage /\
  (totalPages n perPage - 1) * perPage < n \/ (n = 0 /\ totalPages n perPage = 0).
Proof.
  intros Hn Hper. unfold totalPages.
  destruct (decide (n = 0)) as [->|Hne].
  - right. by rewrite Z.div_0_l by lia.
  - left. pose proof (Z.div_mod (- n) perPage) as Hdiv.
    pose proof (Z.mod_pos_bound (- n) perPage Hper). nia.
Qed.

(** The products are counted by the list itself on the path of the sample
    data, for an answer that is an array, and for an answer without a count
    or with a count of 0. *)
Lemma load_counts_the_list sampleProducts categories filterState answer :
  answer = None \/ (exists products, answer = Some (Plain products)) \/
  (exists results, answer = Some (Paged results None)) \/
  (exists results, answer = Some (Paged results (Some 0))) ->
  let loaded := loadedProducts sampleProducts categories filterState answer in
  snd loaded = Z.of_nat (length (fst loaded)).
Proof. intros [->|[[? ->]|[[? ->]|[? ->]]]]; reflexivity. Qed.

(** X19.  For a page size above 0 and a load whose number of products is the
    length of the list it holds (as on the path of the sample data), the
    pages 1 to the last one are a partition of the product list: put one
    after the other they give the list, each of them holds at least one and
    at most a page size of products, and a page after the last one is
    empty. *)
Theorem pages_partition_the_list (perPage : Z) sampleProducts categories filterState
    answer :
  0 < perPage ->
  let loaded := loadedProducts sampleProducts categories filterState answer in
  let l := fst loaded in
  let pages := totalPages (snd loaded) perPage in
  snd loaded = Z.of_nat (length l) ->
  mjoin ((fun page => productsToShow page perPage l) <$> seqZ 1 pages) = l /\
  Forall (fun page =>
            (0 < length (productsToShow page perPage l) <= Z.to_nat perPage)%nat)
    (seqZ 1 pages) /\
  forall page, pages < page -> productsToShow page perPage l = [].
Proof.
  intros Hper loaded l pages Hcount. unfold pages. rewrite Hcount. clear pages Hcount.
  set (pages := totalPages (Z.of_nat (length l)) perPage).
  destruct (totalPages_bounds (Z.of_nat (length l)) perPage) as [(H0 & Hup & Hlow)|[Hn H0]];
    [lia|done|..].
  - fold pages in H0, Hup, Hlow. split_and!.
    + rewrite <- (Z2Nat.id pages) by done. rewrite pages_up_to by done.
      apply take_ge. nia.
    + apply Forall_seqZ. intros page Hpage.
      rewrite page_as_take_drop by lia. rewrite length_take, length_drop. nia.
    + intros page Hpage. rewrite page_as_take_drop by lia.
      rewrite drop_ge; [by rewrite take_nil|]. nia.
  - fold pages in H0. assert (l = []) as -> by (apply length_zero_iff_nil; lia).
    rewrite H0. split_and!; [done|constructor|]. intros page Hpage.
    unfold productsToShow, Array_slice. by rewrite drop_nil, take_nil.
Qed.

Lemma pages_partition_the_list_witness :
  mjoin ((fun page => productsToShow page 2 [priced 1 300; priced 2 100; priced 3 200])
           <$> seqZ 1 2)
  = [priced 1 300; priced 2 100; priced 3 200].
Proof.
  assert (H : 0 < 2) by lia.
  exact (proj1 (pages_partition_the_list 2
                  [priced 1 300; priced 2 100; priced 3 200] [] clearedFilter None
                  H eq_refl)).
Defined.

(** With a count from the API that is above the number of products it sent,
    the pages are counted from the count and cut from the products sent:
    of 3 pages counted for 2 products, the second and the third are empty. *)
Example counted_pages_can_be_empty :
  let loaded :=
    loadedProducts [] [] clearedFilter
      (Some (Paged [priced 1 300; priced 2 100] (Some 6))) in
  totalPages (snd loaded) 2 = 3 /\
  productsToShow 2 2 (fst loaded) = [] /\
  productsToShow 3 2 (fst loaded) = [].
Proof. by split_and!. Qed.

(** ** The page bar *)

Lemma pageWindow_bounds (currentPage pages : Z) :
  1 <= currentPage <= pages ->
  1 <= fst (pageWindow currentPage pages) <= currentPage /\
  currentPage <= snd (pageWindow currentPage pages) <= pages /\
  fst (pageWindow currentPage pages) <= Z.max 1 (currentPage - 2) /\
  Z.min pages (currentPage + 2) <= snd (pageWindow currentPage pages) /\
  snd (pageWindow currentPage pages) - fst (pageWindow currentPage pages) + 1
  = Z.min 5 pages.
Proof.
  intros Hc. unfold pageWindow. simpl.
  destruct (Z.ltb_spec (Z.min pages (Z.max 1 (currentPage - 2) + 4)
                        - Z.max 1 (currentPage - 2)) 4); simpl; lia.
Qed.

Lemma pageNumbers_of_numbers (l : list Z) : pageNumbers (PageNumber <$> l) = l.
Proof. unfold pageNumbers. induction l as [|x l IH]; csimpl; [done|]. by f_equal. Qed.

Lemma pageNumbers_buttons (currentPage pages : Z) :
  pageNumbers (pageButtons currentPage pages)
  = (if 1 <? fst (pageWindow currentPage pages) then [1] else [])
    ++ seqZ (fst (pageWindow currentPage pages))
         (snd (pageWindow currentPage pages) - fst (pageWindow currentPage pages) + 1)
    ++ (if snd (pageWindow currentPage pages) <? pages then [pages] else []).
Proof.
  unfold pageButtons. destruct (pageWindow currentPage pages) as [s e]. simpl.
  unfold pageNumbers. rewrite !omap_app. fold (pageNumbers (PageNumber <$> seqZ s (e - s + 1))).
  rewrite pageNumbers_of_numbers.
  destruct (1 <? s), (2 <? s), (e <? pages), (e <? pages - 1); reflexivity.
Qed.

Lemma seqZ_sorted (m : Z) (n : nat) : StronglySorted Z.lt (seqZ m (Z.of_nat n)).
Proof.
  revert m. induction n as [|n IH]; intros m; [constructor|].
  rewrite seqZ_cons by lia. constructor.
  - replace (Z.pred (Z.of_nat (S n))) with (Z.of_nat n) by lia. apply IH.
  - apply Forall_seqZ. lia.
Qed.

(** X20.  With the current page among the pages, the numbers on the page
    bar go up strictly from 1 to the last page; the current page and the
    pages up to two before and after it are among them; and there are at
    most 7 numbers. *)
Theorem page_bar_numbers (currentPage pages : Z) :
  1 <= currentPage <= pages ->
  let numbers := pageNumbers (pageButtons currentPage pages) in
  StronglySorted Z.lt numbers /\
  head numbers = Some 1 /\
  last numbers = Some pages /\
  (forall n, 1 <= n <= pages -> currentPage - 2 <= n <= currentPage + 2 -> n ∈ numbers) /\
  Forall (fun n => 1 <= n <= pages) numbers /\
  (length numbers <= 7)%nat.
Proof.
  intros Hc numbers. unfold numbers. rewrite pageNumbers_buttons.
  destruct (pageWindow_bounds currentPage pages Hc) as (Hs & He & Hs' & He' & Hlen).
  set (s := fst (pageWindow currentPage pages)) in *.
  set (e := snd (pageWindow currentPage pages)) in *.
  assert (Hpos : 0 < e - s + 1) by lia.
  split_and!.
  - apply StronglySorted_app_2.
    + intros x y Hx Hy. destruct (Z.ltb_spec 1 s); [|by apply elem_of_nil in Hx].
      apply list_elem_of_singleton in Hx. apply elem_of_app in Hy as [Hy%elem_of_seqZ|Hy].
      * lia.
      * destruct (Z.ltb_spec e pages); [|by apply elem_of_nil in Hy].
        apply list_elem_of_singleton in Hy. lia.
    + destruct (1 <? s); repeat constructor.
    + apply StronglySorted_app_2.
      * intros x y Hx%elem_of_seqZ Hy.
        destruct (Z.ltb_spec e pages); [|by apply elem_of_nil in Hy].
        apply list_elem_of_singleton in Hy. lia.
      * rewrite <- (Z2Nat.id (e - s + 1)) by lia. apply seqZ_sorted.
      * destruct (e <? pages); repeat constructor.
  - destruct (Z.ltb_spec 1 s); [done|].
    rewrite seqZ_cons by lia. simpl. f_equal. lia.
  - rewrite app_assoc. destruct (Z.ltb_spec e pages).
    + by rewrite last_snoc.
    + rewrite app_nil_r, last_app.
      rewrite <- (Z2Nat.id (e - s + 1)) by lia.
      destruct (Z.to_nat (e - s + 1)) as [|k] eqn:Hk; [lia|].
      rewrite seqZ_S, last_snoc. f_equal. lia.
  - intros n Hn Hnear. apply elem_of_app. right. apply elem_of_app. left.
    apply elem_of_seqZ. lia.
  - apply Forall_app. split; [destruct (1 <? s); repeat constructor; lia|].
    apply Forall_app. split.
    + apply Forall_seqZ. lia.
    + destruct (e <? pages); repeat constructor; lia.
  - rewrite !length_app, length_seqZ.
    destruct (1 <? s), (e <? pages); simpl; lia.
Qed.

Lemma page_bar_numbers_witness :
  pageNumbers (pageButtons 6 20) = [1; 4; 5; 6; 7; 8; 20] /\
  StronglySorted Z.lt (pageNumbers (pageButtons 6 20)).
Proof.
  split; [reflexivity|].
  assert (H : 1 <= 6 <= 20) by lia.
  exact (proj1 (page_bar_numbers 6 20 H)).
Defined.

Lemma bar_after_numbers (a : Z) (n : nat) (rest : list PageButton) :
  bar_after (a + Z.of_nat n) rest ->
  bar_after a ((PageNumber <$> seqZ (a + 1) (Z.of_nat n)) ++ rest).
Proof.
  revert a. induction n as [|n IH]; intros a Hrest.
  - simpl. by replace (a + Z.of_nat 0) with a in Hrest by lia.
  - rewrite seqZ_cons by lia. csimpl. apply bar_next.
    replace (Z.pred (Z.of_nat (S n))) with (Z.of_nat n) by lia.
    replace (Z.succ (a + 1)) with (a + 1 + 1) by lia.
    apply IH. by replace (a + 1 + Z.of_nat n) with (a + Z.of_nat (S n)) by lia.
Qed.

(** X21.  With the current page among the pages, the page bar starts with
    page 1 and then, at every step, either shows the next page or an
    ellipsis followed by a page further on: an ellipsis never stands
    between two pages that follow each other, never first, never last and
    never next to another one, and no page is skipped without one. *)
Theorem page_bar_ellipses (currentPage pages : Z) :
  1 <= currentPage <= pages ->
  exists rest,
    pageButtons currentPage pages = PageNumber 1 :: rest /\ bar_after 1 rest.
Proof.
  intros Hc.
  destruct (pageWindow_bounds currentPage pages Hc) as (Hs & He & _ & _ & Hlen).
  unfold pageButtons. destruct (pageWindow currentPage pages) as [s e]. simpl in *.
  assert (Htail : bar_after e
                    (if e <? pages
                     then (if e <? pages - 1 then [Ellipsis] else []) ++ [PageNumber pages]
                     else [])).
  { destruct (Z.ltb_spec e pages); [|constructor].
    destruct (Z.ltb_spec e (pages - 1)); simpl.
    - apply bar_gap; [lia|constructor].
    - replace pages with (e + 1) by lia. apply bar_next. constructor. }
  assert (Hwindow : forall a, a + 1 = s ->
            bar_after a ((PageNumber <$> seqZ s (e - s + 1))
                         ++ (if e <? pages
                             then (if e <? pages - 1 then [Ellipsis] else [])
                                  ++ [PageNumber pages]
                             else []))).
  { intros a Ha. rewrite <- Ha. rewrite <- (Z2Nat.id (e - (a + 1) + 1)) by lia.
    apply bar_after_numbers. by replace (a + Z.of_nat (Z.to_nat (e - (a + 1) + 1))) with e by lia. }
  destruct (Z.ltb_spec 1 s) as [Hfar|Hnear].
  - eexists. split; [reflexivity|].
    destruct (Z.ltb_spec 2 s) as [Hgap|Hnext]; simpl.
    + rewrite seqZ_cons by lia. csimpl. apply bar_gap; [lia|].
      replace (Z.pred (e - s + 1)) with (e - (s + 1) + 1) by lia.
      replace (Z.succ s) with (s + 1) by lia.
      destruct (decide (s = e)) as [->|Hne].
      * rewrite seqZ_nil by lia. exact Htail.
      * rewrite <- (Z2Nat.id (e - (s + 1) + 1)) by lia.
        apply bar_after_numbers.
        by replace (s + Z.of_nat (Z.to_nat (e - (s + 1) + 1))) with e by lia.
    + apply Hwindow. lia.
  - assert (s = 1) as -> by lia. rewrite seqZ_cons by lia. csimpl.
    eexists. split; [reflexivity|].
    replace (Z.pred (e - 1 + 1)) with (e - 2 + 1) by lia.
    change (Z.succ 1) with 2.
    destruct (decide (e = 1)) as [->|Hne].
    + rewrite seqZ_nil by lia. exact Htail.
    + rewrite <- (Z2Nat.id (e - 2 + 1)) by lia.
      apply (bar_after_numbers 1).
      by replace (1 + Z.of_nat (Z.to_nat (e - 2 + 1))) with e by lia.
Qed.

Lemma page_bar_ellipses_witness :
  exists rest, pageButtons 6 20 = PageNumber 1 :: rest /\ bar_after 1 rest.
Proof.
  assert (H : 1 <= 6 <= 20) by lia.
  exact (page_bar_ellipses 6 20 H).
Defined.

(** ** Requests to the API *)

Section ApiRequests.

Context {B : Type}.
Variable server : Request -> option (Reply B).
Variable refresh : Request -> option (Reply string).

Ltac run_fetch :=
  unfold fetchAPI, attempt, mbind, Act_bind, mret, Act_ret, read, send, sendRefresh,
    decoded, lift, setAuth, show, fail, firstRequest, refreshRequest; simpl.

Ltac settle := split_and!; [done | simpl; lia | done | try done].

(** X22.  A call of [fetchAPI] sends at least one and at most three
    requests, the first of which is the request of the caller; it leaves
    the stored credentials alone unless it went on to a second request; and
    what it returns is the decoded body of a 2xx answer to its last
    request. *)
Theorem fetchAPI_sends_at_most_three (endpoint : string) (options : Request)
    (b : Browser) :
  let run := fetchAPI server refresh endpoint options b in
  exists more,
    requests (snd run) = requests b ++ firstRequest endpoint options (auth b) :: more /\
    (length more <= 2)%nat /\
    (more = [] -> auth (snd run) = auth b) /\
    forall v, fst run = Returned v ->
      exists reply,
        (last (firstRequest endpoint options (auth b) :: more) ≫= server) = Some reply /\
        ok reply = true /\ json reply = Some v.
Proof.
  run_fetch.
  set (request := mkRequest endpoint (method options) _ (body options)).
  clearbody request.
  destruct (server request) as [reply|] eqn:Hfirst; simpl.
  2: { exists []. settle. }
  destruct (bool_decide (status reply = 401) && nonempty (getRefreshToken (auth b)))
    eqn:Hexpired; simpl.
  - destruct (refresh _) as [granted|] eqn:Hrefresh; simpl.
    2: { eexists [_]. rewrite <- app_assoc. settle. }
    destruct (ok granted) eqn:Hgranted; simpl.
    2: { eexists [_]. rewrite <- app_assoc. settle. }
    destruct (json granted) as [access|] eqn:Haccess; simpl.
    2: { eexists [_]. rewrite <- app_assoc. settle. }
    destruct (getUserInfo (auth b)) as [user|f] eqn:Huser; simpl.
    2: { eexists [_]. rewrite <- app_assoc. settle. }
    destruct (server (mkRequest endpoint (method options) _ (body options)))
      as [retried|] eqn:Hretry in |- *; simpl.
    2: { eexists [_; _]. rewrite <- !app_assoc. settle. }
    destruct (ok retried) eqn:Hok; simpl.
    2: { eexists [_; _]. rewrite <- !app_assoc. settle. }
    destruct (json retried) as [v|] eqn:Hbody; simpl.
    2: { eexists [_; _]. rewrite <- !app_assoc. settle. }
    eexists [_; _]. rewrite <- !app_assoc. settle.
    intros v' [= <-]. exists retried. simpl. by rewrite Hretry.
  - destruct (ok reply) eqn:Hok; simpl.
    2: { exists []. settle. }
    destruct (json reply) as [v|] eqn:Hbody; simpl.
    2: { exists []. settle. }
    exists []. settle.
    intros v' [= <-]. exists reply. simpl. by rewrite Hfirst.
Qed.

(** X23.  When the first answer is 401, the session has a refresh token and
    the refresh is refused, the session is over: the stored credentials are
    removed, the user is sent to the login page, the call fails, and the
    request is not tried again. *)
Theorem refused_refresh_ends_the_session (endpoint : string) (options : Request)
    (b : Browser) (reply : Reply B) (refused : Reply string) :
  server (firstRequest endpoint options (auth b)) = Some reply ->
  status reply = 401 ->
  nonempty (getRefreshToken (auth b)) = true ->
  refresh (refreshRequest (auth b)) = Some refused ->
  ok refused = false ->
  fetchAPI server refresh endpoint options b
  = (Thrown SessionExpired,
     mkBrowser (clearAuth (auth b))
       (requests b ++ [firstRequest endpoint options (auth b); refreshRequest (auth b)])
       (shown b ++ [Navigate "/pages/login.html"; ConsoleError "API request error:"])).
Proof.
  intros Hfirst Hstatus Htoken Hrefresh Hrefused. run_fetch.
  unfold firstRequest in Hfirst. rewrite Hfirst. simpl.
  rewrite Hstatus, Htoken. simpl.
  unfold refreshRequest in Hrefresh. rewrite Hrefresh. simpl. rewrite Hrefused. simpl.
  by rewrite <- !app_assoc.
Qed.

(** X24.  When the first answer is 401 and the refresh is granted, the new
    access token replaces the stored one while the refresh token and the
    user stay, and the request is sent once more under the new token; its
    answer decides the call. *)
Theorem granted_refresh_retries_once (endpoint : string) (options : Request)
    (b : Browser) (reply : Reply B) (granted : Reply string) (access token : string)
    (user : option User) (retried : Reply B) :
  server (firstRequest endpoint options (auth b)) = Some reply ->
  status reply = 401 ->
  getRefreshToken (auth b) = Some token ->
  token <> EmptyString ->
  refresh (refreshRequest (auth b)) = Some granted ->
  ok granted = true ->
  json granted = Some access ->
  getUserInfo (auth b) = Returned user ->
  server (mkRequest endpoint (method options) (Some (bearer (Some access))) (body options))
  = Some retried ->
  let run := fetchAPI server refresh endpoint options b in
  auth (snd run) = setAuthToken access token user (auth b) /\
  requests (snd run)
  = requests b ++ [firstRequest endpoint options (auth b); refreshRequest (auth b);
                   mkRequest endpoint (method options) (Some (bearer (Some access)))
                     (body options)] /\
  fst run
  = (if ok retried
     then match json retried with Some v => Returned v | None => Thrown BodyRejected end
     else Thrown (ApiRequestFailed (status retried))).
Proof.
  intros Hfirst Hstatus Htoken Hne Hrefresh Hgranted Haccess Huser Hretry. run_fetch.
  unfold firstRequest in Hfirst. rewrite Hfirst. simpl.
  rewrite Hstatus, Htoken. simpl.
  rewrite (bool_decide_eq_false_2 _ Hne). simpl.
  unfold refreshRequest in Hrefresh. rewrite Htoken in Hrefresh. rewrite Hrefresh. simpl.
  rewrite Hgranted. simpl. rewrite Haccess. simpl. rewrite Huser. simpl.
  rewrite Hretry. simpl. rewrite <- !app_assoc.
  destruct (ok retried); simpl; [destruct (json retried); simpl|];
    split_and!; try done; by rewrite Htoken.
Qed.

(** X25.  [handleLogout] always ends the session on the client: whatever the
    server answers, and also when no answer comes, the stored credentials
    are removed and the last thing the page does is to leave for the home
    page. *)
Theorem logout_always_clears (b : Browser) :
  let run := handleLogout (B := B) server refresh b in
  fst run = Returned tt /\
  auth (snd run) = clearAuth (auth b) /\
  last (shown (snd run)) = Some (Navigate "/").
Proof.
  unfold handleLogout, attempt, mbind, Act_bind, read, setAuth, show. simpl.
  destruct (fetchAPI _ _ _ _ _) as [[v|f] b']; simpl;
    split_and!; try reflexivity; apply last_snoc.
Qed.

End ApiRequests.

Lemma refused_refresh_ends_the_session_witness :
  fetchAPI strictServer refusingRefresh "/orders/" plainOptions (signedIn "CUSTOMER")
  = (Thrown SessionExpired,
     mkBrowser (mkAuth None None None)
       [mkRequest "/orders/" None (Some "Bearer token-1") None;
        mkRequest "/token/refresh/" (Some "POST") None (Some "refresh-1")]
       [Navigate "/pages/login.html"; ConsoleError "API request error:"]).
Proof.
  exact (refused_refresh_ends_the_session strictServer refusingRefresh "/orders/"
           plainOptions (signedIn "CUSTOMER") (mkReply 401 None) (mkReply 401 None)
           eq_refl eq_refl eq_refl eq_refl eq_refl).
Defined.

Lemma granted_refresh_retries_once_witness :
  fst (fetchAPI strictServer grantingRefresh "/orders/" plainOptions (signedIn "CUSTOMER"))
  = Returned 7.
Proof.
  assert (Htoken : "refresh-1" <> EmptyString) by discriminate.
  exact (proj2 (proj2
    (granted_refresh_retries_once strictServer grantingRefresh "/orders/"
       plainOptions (signedIn "CUSTOMER") (mkReply 401 None)
       (mkReply 200 (Some "token-2")) "token-2" "refresh-1"
       (Some (mkUser "lan" None (Some "CUSTOMER"))) (mkReply 200 (Some 7))
       eq_refl eq_refl eq_refl Htoken eq_refl eq_refl eq_refl eq_refl eq_refl))).
Defined.

(** ** The guard of the restricted pages *)

Ltac member :=
  solve [repeat first [apply list_elem_of_here | apply list_elem_of_further]].

Ltac same_role :=
  repeat match goal with
  | H : Some _ = Some _ |- _ => first [discriminate H | injection H as ->]
  | H : Returned _ = Returned _ |- _ => first [discriminate H | injection H as ->]
  end.

Ltac navigated H :=
  apply (f_equal (fun r => length (shown (snd r)))) in H; simpl in H;
  rewrite ?length_app in H; simpl in H; lia.

(** X26.  The checks made when a page has loaded complete without sending
    the browser anywhere exactly when the visitor is entitled to the page: a
    session for each restricted page, the role ADMIN for the admin
    dashboard, one of INVENTORY_STAFF, ADMIN and MANAGER for the inventory
    dashboard, and one of SALES_STAFF, ADMIN and MANAGER for the sales
    dashboard. *)
Theorem guard_lets_the_entitled_stay (encodeURIComponent : string -> string)
    (pathname : string) (b : Browser) :
  guardPage encodeURIComponent pathname b = (Returned tt, b) <->
  (existsb (fun page => includes page pathname) restrictedPages = true ->
   isAuthenticated (auth b) = true) /\
  (includes "admin_dashboard.html" pathname = true -> holds ["ADMIN"] (auth b)) /\
  (includes "inventory_dashboard.html" pathname = true ->
   holds ["INVENTORY_STAFF"; "ADMIN"; "MANAGER"] (auth b)) /\
  (includes "sales_dashboard.html" pathname = true ->
   holds ["SALES_STAFF"; "ADMIN"; "MANAGER"] (auth b)).
Proof.
  unfold guardPage, mbind, Act_bind, read, lift, show, skip, mret, Act_ret, isAdmin,
    isInventoryStaff, isManager, isSalesStaff, hasRole, restrictedPages, holds.
  cbn [existsb].
  destruct (includes "checkout.html" pathname),
    (includes "user_orders.html" pathname),
    (includes "admin_dashboard.html" pathname),
    (includes "inventory_dashboard.html" pathname),
    (includes "sales_dashboard.html" pathname),
    (isAuthenticated (auth b)),
    (getUserRole (auth b)) as [[r|]|f]; cbn.
  all: repeat case_bool_decide; cbn.
  all: split;
    [ intros Hrun; first [ discriminate Hrun | navigated Hrun | idtac ];
      split_and!; intros; try done; try discriminate;
      eexists; (split; [reflexivity|]); same_role; member
    | intros (Hlogin & Hadmin & Hinventory & Hsales); try reflexivity; exfalso;
      repeat match goal with H : true = true -> _ |- _ => specialize (H eq_refl) end;
      try discriminate;
      repeat match goal with H : ex _ |- _ => destruct H as (? & ? & ?) end;
      same_role;
      repeat match goal with H : _ ∈ _ |- _ =>
        rewrite ?elem_of_cons, elem_of_nil in H end;
      intuition congruence ].
Qed.

(** X27.  A stored user that does not parse leaves the dashboards open: with
    a session whose [user_info] is not JSON, the checks of a dashboard page
    stop at the first question about the role, and the browser is sent
    nowhere. *)
Theorem unreadable_user_is_not_sent_away (encodeURIComponent : string -> string)
    (pathname text : string) (b : Browser) :
  isAuthenticated (auth b) = true ->
  user_info (auth b) = Some (Malformed text) ->
  text <> EmptyString ->
  includes "admin_dashboard.html" pathname
  || includes "inventory_dashboard.html" pathname
  || includes "sales_dashboard.html" pathname = true ->
  guardPage encodeURIComponent pathname b = (Thrown UserInfoRejected, b).
Proof.
  intros Hsession Huser Htext Hpage.
  unfold guardPage, mbind, Act_bind, read, lift, show, skip, mret, Act_ret, isAdmin,
    isInventoryStaff, isManager, isSalesStaff, hasRole, getUserRole, getUserInfo.
  rewrite Hsession, Huser, (bool_decide_eq_false_2 _ Htext), andb_false_r.
  destruct (includes "admin_dashboard.html" pathname),
    (includes "inventory_dashboard.html" pathname),
    (includes "sales_dashboard.html" pathname); try discriminate Hpage; reflexivity.
Qed.

Lemma unreadable_user_is_not_sent_away_witness :
  guardPage (fun path => path) "/pages/admin_dashboard.html"
    (mkBrowser (mkAuth (Some "token-1") (Some "refresh-1") (Some (Malformed "undefined")))
       [] [])
  = (Thrown UserInfoRejected,
     mkBrowser (mkAuth (Some "token-1") (Some "refresh-1") (Some (Malformed "undefined")))
       [] []).
Proof.
  apply (unreadable_user_is_not_sent_away (fun path => path)
           "/pages/admin_dashboard.html" "undefined"); [reflexivity..|discriminate|reflexivity].
Defined.

(** ** The stars of a rating *)

Lemma remainder_1_nonneg (rating : Q) :
  (0 <= rating)%Q -> (remainder_1 rating == rating - inject_Z (Qfloor rating))%Q.
Proof.
  intros Hpos. unfold remainder_1. destruct rating as [n d]. simpl.
  rewrite Z.quot_div_nonneg; [reflexivity| |lia].
  unfold Qle in Hpos. simpl in Hpos. lia.
Qed.

(** X28.  For a rating from 0 to 5, [updateRatingStars] draws five stars:
    full ones, then at most one half star, then empty ones; and what the
    full and half stars stand for is the rating rounded down to a half. *)
Theorem rating_draws_five_stars (rating : Q) :
  (0 <= rating)%Q -> (rating <= 5)%Q ->
  exists full half empty : nat,
    updateRatingStars rating
    = replicate full FullStar ++ replicate half HalfStar ++ replicate empty EmptyStar /\
    (full + half + empty = 5)%nat /\ (half <= 1)%nat /\
    (halves full half <= rating)%Q /\ (rating < halves full half + (1 # 2))%Q.
Proof.
  intros Hlow Hhigh.
  pose proof (Qfloor_le rating) as Hfloor.
  pose proof (Qlt_floor rating) as Hnext.
  assert (Hfull : 0 <= Qfloor rating <= 5).
  { split.
    - rewrite <- (Qfloor_Z 0). by apply Qfloor_resp_le.
    - rewrite <- (Qfloor_Z 5). by apply Qfloor_resp_le. }
  rewrite inject_Z_plus in Hnext. change (inject_Z 1) with 1%Q in Hnext.
  unfold updateRatingStars, halves.
  destruct (Qle_bool (1 # 2) (remainder_1 rating)) eqn:Hhalf.
  - apply Qle_bool_iff in Hhalf. rewrite (remainder_1_nonneg _ Hlow) in Hhalf.
    assert (Qfloor rating <> 5).
    { intros H5. rewrite H5 in Hhalf. change (inject_Z 5) with 5%Q in Hhalf. lra. }
    exists (Z.to_nat (Qfloor rating)), 1%nat, (Z.to_nat (5 - Qfloor rating - 1)).
    rewrite Z2Nat.id by lia. change (inject_Z (Z.of_nat 1)) with 1%Q.
    split_and!; [done|lia|lia|lra|lra].
  - assert (Hless : ~ (1 # 2 <= remainder_1 rating)%Q).
    { rewrite <- Qle_bool_iff. by rewrite Hhalf. }
    rewrite (remainder_1_nonneg _ Hlow) in Hless.
    exists (Z.to_nat (Qfloor rating)), 0%nat, (Z.to_nat (5 - Qfloor rating - 0)).
    rewrite Z2Nat.id by lia. change (inject_Z (Z.of_nat 0)) with 0%Q.
    split_and!; [done|lia|lia|lra|lra].
Qed.

Lemma rating_draws_five_stars_witness :
  exists full half empty : nat,
    updateRatingStars (9 # 2)
    = replicate full FullStar ++ replicate half HalfStar ++ replicate empty EmptyStar /\
    (full + half + empty = 5)%nat /\ (half <= 1)%nat /\
    (halves full half <= 9 # 2)%Q /\ (9 # 2 < halves full half + (1 # 2))%Q.
Proof.
  apply (rating_draws_five_stars (9 # 2)); unfold Qle; simpl; lia.
Defined.
